(** * go-logger: a shallow embedding of the level model, the zap adapter
      and the context resolution chain.

    The development follows the three source files of the package:
    - [logger.go]  : [LogLevel], [Text2Level], the process-wide defaults,
                     [ToContext] / [FromContext] / [FromDefaultContext];
    - [config.go]  : [Config] and the global [LoggerConfig];
    - [zap.go]     : [zapLogger], [convLevel], [newZap], [trace] and the
                     methods of the adapter.

    The zap library, [fmt], [runtime] and the Unicode tables of [strings]
    are not part of the package: they are interfaces here ([ZapBackend],
    [GoRuntime]) and every theorem holds for all their implementations. *)

From Stdlib Require Import Bool List String Ascii NArith ZArith Lia.
Import ListNotations.

Local Open Scope string_scope.

(* ===================================================================== *)
(** ** Go values that cross the package boundary                          *)
(* ===================================================================== *)

(** Go's [error] values of this package are made by [errors.New]; what the
    callers can observe of them is the message. *)
Definition error := string.

Definition errors_New (msg : string) : error := msg.

(** A value of type [interface{}] that is not a logger: the arguments of the
    write methods, the fields given to [With], and whatever else a program
    stores in a context. *)
#[warnings="-register-all"]
Inductive any : Type :=
| anyString (s : string)
| anyInt (z : Z)
| anyBool (b : bool)
| anyError (e : error)
| anySlice (l : list any).

(** [runtime.Caller] returns [(pc, file, line, ok)]. *)
Record CallerInfo := mkCallerInfo {
  ci_pc : N;
  ci_file : string;
  ci_line : Z;
  ci_ok : bool
}.

(** What the package takes from the Go runtime and standard library. *)
Class GoRuntime := {
  (** [strings.Map(unicode.ToUpper, s)], used by [strings.ToUpper] on a
      string that holds a byte outside ASCII *)
  unicode_MapToUpper : string -> string;
  (** [fmt.Sprint(args...)] *)
  fmt_Sprint : list any -> string;
  (** [fmt.Sprintf(format, args...)] *)
  fmt_Sprintf : string -> list any -> string;
  (** [runtime.Caller(skip)] at the place [trace] calls it *)
  runtime_Caller : Z -> CallerInfo
}.

(* ===================================================================== *)
(** ** strings.ToUpper                                                    *)
(* ===================================================================== *)

Module GoStrings.

(** [utf8.RuneSelf]: bytes below it are single-byte runes. *)
Definition RuneSelf : N := 128.

Definition byte (c : ascii) : N := N_of_ascii c.

(** ['a' <= c && c <= 'z'] *)
Definition isLower (c : ascii) : bool :=
  ((97 <=? byte c) && (byte c <=? 122))%N.

(** [c -= 'a' - 'A'] on a lower-case letter, any other byte is kept. *)
Definition upperByte (c : ascii) : ascii :=
  if isLower c then ascii_of_N (byte c - 32) else c.

Fixpoint isASCII (s : string) : bool :=
  match s with
  | EmptyString => true
  | String c s' => (byte c <? RuneSelf)%N && isASCII s'
  end.

Fixpoint mapBytes (f : ascii -> ascii) (s : string) : string :=
  match s with
  | EmptyString => EmptyString
  | String c s' => String (f c) (mapBytes f s')
  end.

(** [strings.ToUpper]: the ASCII-only path rewrites the letters byte by
    byte; any other string goes through the Unicode mapping. *)
Definition ToUpper `{GoRuntime} (s : string) : string :=
  if isASCII s then mapBytes upperByte s else unicode_MapToUpper s.

End GoStrings.

(* ===================================================================== *)
(** ** logger.go: the severity enumeration                                *)
(* ===================================================================== *)

(** [type LogLevel uint8] *)
Definition LogLevel := N.

(** The [iota] block of logger.go. *)
Definition PanicLevel : LogLevel := 0%N.
Definition FatalLevel : LogLevel := 1%N.
Definition ErrorLevel : LogLevel := 2%N.
Definition WarnLevel  : LogLevel := 3%N.
Definition InfoLevel  : LogLevel := 4%N.
Definition DebugLevel : LogLevel := 5%N.
Definition TraceLevel : LogLevel := 6%N.

(** [var logLevel LogLevel] without an initialiser. *)
Definition LogLevel_zero : LogLevel := 0%N.

(** [Text2Level]: a [switch] on [strings.ToUpper(level)] with eight cases
    and no [default]; a text that matches no case leaves [logLevel] at the
    value its declaration gave it. *)
Definition Text2Level `{GoRuntime} (level : string) : LogLevel :=
  let logLevel := LogLevel_zero in
  let u := GoStrings.ToUpper level in
  if u =? "TRACE" then TraceLevel
  else if u =? "DEBUG" then DebugLevel
  else if u =? "INFO" then InfoLevel
  else if u =? "WARNING" then WarnLevel
  else if u =? "ERROR" then ErrorLevel
  else if u =? "FATAL" then FatalLevel
  else if u =? "PANIC" then PanicLevel
  else if u =? "UNKNOWN" then InfoLevel
  else logLevel.

(** The text each [case] of [Text2Level] names, with the level it
    assigns. *)
Definition Text2Level_table : list (string * LogLevel) :=
  [("TRACE", TraceLevel); ("DEBUG", DebugLevel); ("INFO", InfoLevel);
   ("WARNING", WarnLevel); ("ERROR", ErrorLevel); ("FATAL", FatalLevel);
   ("PANIC", PanicLevel); ("UNKNOWN", InfoLevel)].

(** The eight texts the [switch] names. *)
Definition recognized_texts : list string :=
  ["TRACE"; "DEBUG"; "INFO"; "WARNING"; "ERROR"; "FATAL"; "PANIC"; "UNKNOWN"].

Definition recognized (u : string) : bool :=
  existsb (String.eqb u) recognized_texts.

(* ===================================================================== *)
(** ** zapcore levels                                                     *)
(* ===================================================================== *)

Module zapcore.

(** [type Level int8], with [DebugLevel Level = iota - 1]. *)
Definition Level := Z.

Definition DebugLevel  : Level := (-1)%Z.
Definition InfoLevel   : Level := 0%Z.
Definition WarnLevel   : Level := 1%Z.
Definition ErrorLevel  : Level := 2%Z.
Definition DPanicLevel : Level := 3%Z.
Definition PanicLevel  : Level := 4%Z.
Definition FatalLevel  : Level := 5%Z.

(** The levels a leveled call of the sugared logger can write at. *)
Definition native_levels : list Level :=
  [DebugLevel; InfoLevel; WarnLevel; ErrorLevel; DPanicLevel; PanicLevel;
   FatalLevel].

(** [zapcore.LevelEncoder] values the package installs.  The third one
    is the package's own [TraceLevelEncoder]. *)
Inductive LevelEncoder :=
| LowercaseLevelEncoder
| CapitalColorLevelEncoder
| TraceLevelEncoder.

Inductive TimeEncoder := ISO8601TimeEncoder.

(** The second one is the package's own [bracketsCallerEncoder]. *)
Inductive CallerEncoder := ShortCallerEncoder | bracketsCallerEncoder.

(** The fields of [zapcore.EncoderConfig] that [newZap] sets; a function
    field left unset is [None]. *)
Record EncoderConfig := mkEncoderConfig {
  MessageKey : string;
  LevelKey : string;
  TimeKey : string;
  CallerKey : string;
  EncodeLevel : option LevelEncoder;
  EncodeTime : option TimeEncoder;
  EncodeCaller : option CallerEncoder
}.

(** [zapcore.EntryCaller], as [zapcore.NewEntryCaller] makes it from the
    four results of [runtime.Caller]. *)
Inductive EntryCaller :=
| EntryCaller_zero
| NewEntryCaller (ci : CallerInfo).

(** [zapcore.Entry]; [Time] counts from the zero time. *)
Record Entry := mkEntry {
  Level_ : Level;
  Time : Z;
  LoggerName : string;
  Message : string;
  Caller : EntryCaller;
  Stack : string
}.

(** [zapcore.Entry{}] *)
Definition Entry_zero : Entry :=
  mkEntry 0%Z 0%Z "" "" EntryCaller_zero "".

End zapcore.

(** [convLevel]: [nil] is [None], [&lvl] is [Some lvl]. *)
Definition convLevel (level : LogLevel) : option zapcore.Level :=
  if (level =? TraceLevel)%N then Some zapcore.DebugLevel
  else if (level =? DebugLevel)%N then Some zapcore.DebugLevel
  else if (level =? InfoLevel)%N then Some zapcore.InfoLevel
  else if (level =? WarnLevel)%N then Some zapcore.WarnLevel
  else if (level =? ErrorLevel)%N then Some zapcore.ErrorLevel
  else if (level =? FatalLevel)%N then Some zapcore.FatalLevel
  else None.

(* ===================================================================== *)
(** ** The zap library, as the adapter uses it                            *)
(* ===================================================================== *)

Module zap.

(** [zap.Option] values the package builds. *)
Inductive Option :=
| Development
| AddCaller
| AddCallerSkip (skip : Z).

(** The fields of [zap.Config] that [newZap] sets.  [Level] holds the
    level given to [zap.NewAtomicLevelAt]. *)
Record Config := mkConfig {
  Level : zapcore.Level;
  Development_ : bool;
  Encoding : string;
  OutputPaths : list string;
  EncoderConfig : zapcore.EncoderConfig
}.

(** What [Config.Build] asks of a configuration: an encoding that is
    registered, a time encoder whenever a time key is set, and output
    paths that always open. *)
Definition well_formed (cfg : Config) : bool :=
  ((Encoding cfg =? "json") || (Encoding cfg =? "console"))
  && ((zapcore.TimeKey (EncoderConfig cfg) =? "")
      || match zapcore.EncodeTime (EncoderConfig cfg) with
         | Some _ => true
         | None => false
         end)
  && forallb (fun p => (p =? "stdout") || (p =? "stderr")) (OutputPaths cfg).

End zap.

(** The operations of zap the adapter calls.  A [SugaredLogger] is held by
    value in [zapLogger]; none of the operations changes its receiver. *)
Class ZapBackend := {
  SugaredLogger : Type;
  Core : Type;
  (** [config.Build()] followed by [.Sugar()] *)
  zap_Build : zap.Config -> SugaredLogger + error;
  (** [s.With(args...)] *)
  zap_With : SugaredLogger -> list any -> SugaredLogger;
  (** [s.WithOptions(opts...)]; also
      [s.Desugar().WithOptions(opts...).Sugar()] *)
  zap_WithOptions : SugaredLogger -> list zap.Option -> SugaredLogger;
  (** [s.Desugar().Check(lvl, msg) != nil] *)
  zap_Check : SugaredLogger -> zapcore.Level -> string -> bool;
  (** [s.Desugar().Core()] *)
  zap_Core : SugaredLogger -> Core
}.

(** The three shapes of a leveled call on a sugared logger. *)
Inductive write_call :=
| Plain (args : list any)                       (* Info(args...) *)
| Formatted (template : string) (args : list any) (* Infof(s, args...) *)
| KeyValues (msg : string) (kvs : list any).    (* Infow(s, kvs...) *)

(* ===================================================================== *)
(** ** config.go                                                          *)
(* ===================================================================== *)

Record Config := mkConfig {
  Level : string;
  IsJson : bool
}.

(** The initial value of the global: [var LoggerConfig = Config{}]. *)
Definition Config_zero : Config := mkConfig "" false.

(* ===================================================================== *)
(** ** Handles, contexts and the process state                            *)
(* ===================================================================== *)

Section Logger.

Context {RT : GoRuntime} {ZB : ZapBackend}.

(** [type zapLogger struct { log zap.SugaredLogger; traceLevel bool }] *)
Record zapLogger := mk_zapLogger {
  log : SugaredLogger;
  traceLevel : bool
}.

(** A [*zapLogger].  No method assigns to the fields of its receiver, so
    a pointer is the address the struct was allocated at together with
    the struct found there. *)
Record zapLoggerPtr := mkPtr {
  addr : nat;
  deref : zapLogger
}.

(** A non-nil value of the interface type [Logger]: a handle of this
    adapter, or a value of some other type with the method set (the
    [MockLogger] of the tests). *)
Inductive LoggerImpl :=
| ZapLogger (p : zapLoggerPtr)
| OtherLogger (id : nat).

(** A value of type [Logger]; [None] is the nil interface. *)
Definition Logger := option LoggerImpl.

(** *** context.Context *)

(** A context key is compared with [==] on [interface{}]: the dynamic
    type and the value both count. *)
Record ctxKey := mkKey {
  key_type : string;
  key_value : string
}.

Definition ctxKey_eqb (a b : ctxKey) : bool :=
  (key_type a =? key_type b) && (key_value a =? key_value b).

(** [const loggerKey = "logger"], an untyped string constant. *)
Definition loggerKey : ctxKey := mkKey "string" "logger".

(** The [interface{}] a context stores or returns. *)
Inductive ctxValue :=
| ctxNil
| ctxLogger (l : LoggerImpl)
| ctxOther (a : any).

(** The conversion of a [Logger] to [interface{}]: a nil interface stays
    nil. *)
Definition Logger_to_any (l : Logger) : ctxValue :=
  match l with
  | Some i => ctxLogger i
  | None => ctxNil
  end.

(** The type assertion [o.(Logger)] with its [ok] result. *)
Definition assert_Logger (o : ctxValue) : Logger * bool :=
  match o with
  | ctxLogger i => (Some i, true)
  | _ => (None, false)
  end.

(** The non-nil contexts of package [context]: the background, a value
    context over a parent, and the derived contexts that hold no value of
    their own (cancellation, deadline).  The nil interface is not among
    them: [context.WithValue] refuses a nil parent. *)
Inductive Context :=
| Background
| WithValue (parent : Context) (key : ctxKey) (val : ctxValue)
| WithCancel (parent : Context).

(** [ctx.Value(key)] *)
Fixpoint Value (ctx : Context) (key : ctxKey) : ctxValue :=
  match ctx with
  | Background => ctxNil
  | WithValue parent k v => if ctxKey_eqb k key then v else Value parent key
  | WithCancel parent => Value parent key
  end.

(** *** What the process writes *)

Inductive event :=
(** a leveled call on a sugared logger: [s.Info(..)], [s.Debugf(..)], ... *)
| LeveledWrite (s : SugaredLogger) (lvl : zapcore.Level) (c : write_call)
(** [core.Write(entry, nil)], reached from [CheckedEntry.Write] *)
| CoreWrite (c : Core) (e : zapcore.Entry).

(** *** The package-level variables and the allocator *)

Record State := mkState {
  def : Logger;                     (* var def Logger = nil *)
  defaultContext : option Context;  (* var defaultContext = nil *)
  LoggerConfig : Config;            (* var LoggerConfig = Config{} *)
  allocated : nat;                  (* zapLogger structs allocated so far *)
  output : list event               (* backend calls made so far *)
}.

Definition State_init : State := mkState None None Config_zero 0 [].

(** A call returns a value or panics; the state reached is kept in both
    cases. *)
Inductive outcome (A : Type) :=
| Ret (a : A) (s : State)
| Panicked (e : error) (s : State).
Arguments Ret {A} a s.
Arguments Panicked {A} e s.

Definition M (A : Type) := State -> outcome A.

Definition ret {A} (a : A) : M A := fun s => Ret a s.

Definition bind {A B} (m : M A) (k : A -> M B) : M B :=
  fun s => match m s with
           | Ret a s' => k a s'
           | Panicked e s' => Panicked e s'
           end.

Definition panic {A} (e : error) : M A := fun s => Panicked e s.

Definition get : M State := fun s => Ret s s.

Definition final_state {A} (o : outcome A) : State :=
  match o with
  | Ret _ s => s
  | Panicked _ s => s
  end.

End Logger.

Arguments Ret {ZB A} a s.
Arguments Panicked {ZB A} e s.

Declare Scope go_scope.
Delimit Scope go_scope with go.
Notation "x <- c ;; k" := (bind c (fun x => k))
  (at level 61, c at next level, right associativity) : go_scope.
Notation "c ;; k" := (bind c (fun _ => k))
  (at level 61, right associativity) : go_scope.

Local Open Scope go_scope.

(* ===================================================================== *)
(** ** zap.go                                                             *)
(* ===================================================================== *)

Section ZapAdapter.

Context {RT : GoRuntime} {ZB : ZapBackend}.

(** [var skipCallers = 1] *)
Definition skipCallers : Z := 1.

(** [var options = []zap.Option{...}] *)
Definition options : list zap.Option :=
  [zap.Development; zap.AddCaller; zap.AddCallerSkip skipCallers].

(** [errors.New("wrong logging level")] *)
Definition errWrongLevel : error := errors_New "wrong logging level".

(** [&zapLogger{...}]: a new struct at the next free address. *)
Definition new_zapLogger (z : zapLogger) : M zapLoggerPtr :=
  fun s =>
    Ret (mkPtr (allocated s) z)
        (mkState (def s) (defaultContext s) (LoggerConfig s)
                 (S (allocated s)) (output s)).

(** The call of a backend write: it is recorded in the output. *)
Definition emit (e : event) : M unit :=
  fun s =>
    Ret tt (mkState (def s) (defaultContext s) (LoggerConfig s)
                    (allocated s) (output s ++ [e])).

(** The [zap.Config] that [newZap] hands to [Build]: the JSON literal,
    the console changes when [json] is false, then the level encoder of
    the trace level. *)
Definition newZap_config (json : bool) (level : LogLevel)
    (lvl : zapcore.Level) : zap.Config :=
  let config :=
    zap.mkConfig lvl true "json" ["stdout"]
      (zapcore.mkEncoderConfig "message" "severity" "timestamp" "module"
         (Some zapcore.LowercaseLevelEncoder)
         (Some zapcore.ISO8601TimeEncoder)
         (Some zapcore.ShortCallerEncoder)) in
  let config :=
    if negb json then
      zap.mkConfig (zap.Level config) (zap.Development_ config) "console"
        (zap.OutputPaths config)
        (zapcore.mkEncoderConfig
           (zapcore.MessageKey (zap.EncoderConfig config))
           (zapcore.LevelKey (zap.EncoderConfig config))
           ""
           (zapcore.CallerKey (zap.EncoderConfig config))
           (Some zapcore.CapitalColorLevelEncoder)
           (zapcore.EncodeTime (zap.EncoderConfig config))
           (Some zapcore.bracketsCallerEncoder))
    else config in
  if (level =? TraceLevel)%N then
    zap.mkConfig (zap.Level config) (zap.Development_ config)
      (zap.Encoding config) (zap.OutputPaths config)
      (zapcore.mkEncoderConfig
         (zapcore.MessageKey (zap.EncoderConfig config))
         (zapcore.LevelKey (zap.EncoderConfig config))
         (zapcore.TimeKey (zap.EncoderConfig config))
         (zapcore.CallerKey (zap.EncoderConfig config))
         (Some zapcore.TraceLevelEncoder)
         (zapcore.EncodeTime (zap.EncoderConfig config))
         (zapcore.EncodeCaller (zap.EncoderConfig config)))
  else config.

(** [newZap]; the Go results [(Logger, error)] are the pair. *)
Definition newZap (json : bool) (level : LogLevel)
    : M (Logger * option error) :=
  match convLevel level with
  | None => ret (None, Some errWrongLevel)
  | Some lvl =>
      match zap_Build (newZap_config json level lvl) with
      | inr err => ret (None, Some err)
      | inl logger =>
          p <- new_zapLogger (mk_zapLogger logger (TraceLevel =? level)%N) ;;
          ret (Some (ZapLogger p), None)
      end
  end.

(** *** trace and the CheckedEntry it fills *)

(** [zapcore.CheckedEntry]: the entry and the cores that will get it. *)
Record CheckedEntry := mkCheckedEntry {
  ce_Entry : zapcore.Entry;
  ce_cores : list Core
}.

(** [ce.AddCore(ent, core)]: a nil receiver is replaced by a new checked
    entry holding [ent]; the core is appended. *)
Definition AddCore (ce : option CheckedEntry) (ent : zapcore.Entry)
    (core : Core) : option CheckedEntry :=
  let ce := match ce with
            | Some c => c
            | None => mkCheckedEntry ent []
            end in
  Some (mkCheckedEntry (ce_Entry ce) (ce_cores ce ++ [core])).

(** [ce.Write()]: every core of the checked entry writes the entry. *)
Fixpoint write_cores (cores : list Core) (e : zapcore.Entry) : M unit :=
  match cores with
  | [] => ret tt
  | c :: cs => emit (CoreWrite c e) ;; write_cores cs e
  end.

Definition ce_Write (ce : CheckedEntry) : M unit :=
  write_cores (ce_cores ce) (ce_Entry ce).

(** [const callerSkipOffset = 2] in [trace] *)
Definition callerSkipOffset : Z := 2.

(** The level [trace] gives its records: [zapcore.DebugLevel - 1]. *)
Definition traceEntryLevel : zapcore.Level := (zapcore.DebugLevel - 1)%Z.

Definition trace (l : zapLoggerPtr) (msg : string) : M unit :=
  let skipLogger := zap_WithOptions (log (deref l)) options in
  let ce := Some (mkCheckedEntry zapcore.Entry_zero []) in
  let ce := AddCore ce zapcore.Entry_zero (zap_Core skipLogger) in
  match ce with
  | Some ce =>
      let entry :=
        zapcore.mkEntry
          traceEntryLevel
          (zapcore.Time (ce_Entry ce))
          (zapcore.LoggerName (ce_Entry ce))
          msg
          (zapcore.NewEntryCaller (runtime_Caller callerSkipOffset))
          (zapcore.Stack (ce_Entry ce)) in
      ce_Write (mkCheckedEntry entry (ce_cores ce))
  | None => ret tt
  end.

(** *** The write methods *)

(** A leveled call on a sugared logger. *)
Definition sugared (s : SugaredLogger) (lvl : zapcore.Level)
    (c : write_call) : M unit :=
  emit (LeveledWrite s lvl c).

Definition Info (l : zapLoggerPtr) (i : list any) : M unit :=
  let skipLogger := zap_WithOptions (log (deref l)) options in
  sugared skipLogger zapcore.InfoLevel (Plain i).

Definition Infof (l : zapLoggerPtr) (s : string) (i : list any) : M unit :=
  let skipLogger := zap_WithOptions (log (deref l)) options in
  sugared skipLogger zapcore.InfoLevel (Formatted s i).

Definition Infow (l : zapLoggerPtr) (s : string) (i : list any) : M unit :=
  let skipLogger := zap_WithOptions (log (deref l)) options in
  sugared skipLogger zapcore.InfoLevel (KeyValues s i).

Definition Warn (l : zapLoggerPtr) (i : list any) : M unit :=
  let skipLogger := zap_WithOptions (log (deref l)) options in
  sugared skipLogger zapcore.WarnLevel (Plain i).

Definition Warnf (l : zapLoggerPtr) (s : string) (i : list any) : M unit :=
  let skipLogger := zap_WithOptions (log (deref l)) options in
  sugared skipLogger zapcore.WarnLevel (Formatted s i).

Definition Warnw (l : zapLoggerPtr) (s : string) (i : list any) : M unit :=
  let skipLogger := zap_WithOptions (log (deref l)) options in
  sugared skipLogger zapcore.WarnLevel (KeyValues s i).

Definition Error (l : zapLoggerPtr) (i : list any) : M unit :=
  let skipLogger := zap_WithOptions (log (deref l)) options in
  sugared skipLogger zapcore.ErrorLevel (Plain i).

Definition Errorf (l : zapLoggerPtr) (s : string) (i : list any) : M unit :=
  let skipLogger := zap_WithOptions (log (deref l)) options in
  sugared skipLogger zapcore.ErrorLevel (Formatted s i).

Definition Errorw (l : zapLoggerPtr) (s : string) (i : list any) : M unit :=
  let skipLogger := zap_WithOptions (log (deref l)) options in
  sugared skipLogger zapcore.ErrorLevel (KeyValues s i).

Definition Debug (l : zapLoggerPtr) (i : list any) : M unit :=
  let skipLogger := zap_WithOptions (log (deref l)) options in
  sugared skipLogger zapcore.DebugLevel (Plain i).

Definition Debugf (l : zapLoggerPtr) (s : string) (i : list any) : M unit :=
  let skipLogger := zap_WithOptions (log (deref l)) options in
  sugared skipLogger zapcore.DebugLevel (Formatted s i).

(** [Trace] and [Tracef] call [Debugf] of the backend. *)
Definition Trace (l : zapLoggerPtr) (s : string) (i : list any) : M unit :=
  let skipLogger := zap_WithOptions (log (deref l)) options in
  sugared skipLogger zapcore.DebugLevel (Formatted s i).

Definition Tracef (l : zapLoggerPtr) (s : string) (i : list any) : M unit :=
  let skipLogger := zap_WithOptions (log (deref l)) options in
  sugared skipLogger zapcore.DebugLevel (Formatted s i).

Definition Debugw (l : zapLoggerPtr) (s : string) (i : list any) : M unit :=
  let skipLogger := zap_WithOptions (log (deref l)) options in
  sugared skipLogger zapcore.DebugLevel (KeyValues s i).

Definition Print (l : zapLoggerPtr) (args : list any) : M unit :=
  trace l (fmt_Sprint args).

Definition Printf (l : zapLoggerPtr) (arg : string) (int : list any)
    : M unit :=
  trace l (fmt_Sprintf arg int).

(** *** The methods that return a handle *)

Definition WithError (l : zapLoggerPtr) (err : error) : M Logger :=
  p <- new_zapLogger
         (mk_zapLogger
            (zap_With (log (deref l)) [anyString "error"; anyError err])
            (traceLevel (deref l))) ;;
  ret (Some (ZapLogger p)).

Definition WithField (l : zapLoggerPtr) (key : string) (value : any)
    : M Logger :=
  p <- new_zapLogger
         (mk_zapLogger
            (zap_With (log (deref l)) [anyString key; value])
            (traceLevel (deref l))) ;;
  ret (Some (ZapLogger p)).

Definition SkipCallers (l : zapLoggerPtr) (count : Z) : M Logger :=
  p <- new_zapLogger
         (mk_zapLogger
            (zap_WithOptions (log (deref l)) [zap.AddCallerSkip count])
            (traceLevel (deref l))) ;;
  ret (Some (ZapLogger p)).

(** [With]: the struct literal names the field [log] only, so
    [traceLevel] gets the zero value of [bool]; the variadic [f] is
    passed on as one argument, the slice. *)
Definition With (l : zapLoggerPtr) (f : list any) : M Logger :=
  p <- new_zapLogger
         (mk_zapLogger (zap_With (log (deref l)) [anySlice f]) false) ;;
  ret (Some (ZapLogger p)).

Definition Check (l : zapLoggerPtr) (level : LogLevel) : bool :=
  if (level =? TraceLevel)%N then traceLevel (deref l)
  else
    match convLevel level with
    | None => false
    | Some lvl => zap_Check (log (deref l)) lvl ""
    end.

End ZapAdapter.

(* ===================================================================== *)
(** ** logger.go: construction, the defaults and the context chain        *)
(* ===================================================================== *)

Section Package.

Context {RT : GoRuntime} {ZB : ZapBackend}.

Definition NewLogger (conf : Config) : M (Logger * option error) :=
  newZap (IsJson conf) (Text2Level (Level conf)).

Definition SetDefaultLogger (l : Logger) : M unit :=
  fun s =>
    Ret tt (mkState l (defaultContext s) (LoggerConfig s)
                    (allocated s) (output s)).

(** The argument is a [context.Context] that may be nil. *)
Definition SetDefaultContext (ctx : option Context) : M unit :=
  fun s =>
    Ret tt (mkState (def s) ctx (LoggerConfig s) (allocated s) (output s)).

(** [LoggerConfig.Level = level] *)
Definition set_LoggerConfig_Level (level : string) : M unit :=
  fun s =>
    Ret tt (mkState (def s) (defaultContext s)
                    (mkConfig level (IsJson (LoggerConfig s)))
                    (allocated s) (output s)).

(** The state after the first two statements of the lazy path of
    [GetDefaultLogger]: an empty [LoggerConfig.Level] has become
    "DEBUG", nothing else has changed. *)
Definition with_default_level (s : State) : State :=
  if Level (LoggerConfig s) =? ""
  then mkState (def s) (defaultContext s)
               (mkConfig "DEBUG" (IsJson (LoggerConfig s)))
               (allocated s) (output s)
  else s.

Definition GetDefaultLogger : M Logger :=
  s <- get ;;
  match def s with
  | Some d => ret (Some d)
  | None =>
      (if Level (LoggerConfig s) =? ""
       then set_LoggerConfig_Level "DEBUG"
       else ret tt) ;;
      s <- get ;;
      r <- newZap (IsJson (LoggerConfig s))
                  (Text2Level (Level (LoggerConfig s))) ;;
      match snd r with
      | Some err => panic err
      | None => ret (fst r)
      end
  end.

Definition ToContext (ctx : Context) (l : Logger) : Context :=
  WithValue ctx loggerKey (Logger_to_any l).

Definition FromDefaultContext : M Logger :=
  s <- get ;;
  dc <- match defaultContext s with
        | None => SetDefaultContext (Some Background) ;; ret Background
        | Some c => ret c
        end ;;
  let '(loggerFromContext, ok) := assert_Logger (Value dc loggerKey) in
  if ok then ret loggerFromContext else GetDefaultLogger.

Definition FromContext (ctx : Context) : M Logger :=
  let o := Value ctx loggerKey in
  match o with
  | ctxNil => FromDefaultContext
  | _ =>
      let '(loggerFromContext, ok) := assert_Logger o in
      if ok then ret loggerFromContext else ret None
  end.

End Package.

(* ===================================================================== *)
(** ** zap.go: the two encoders of the package                            *)
(* ===================================================================== *)

(** A [zapcore.PrimitiveArrayEncoder], as the elements appended to it. *)
Definition PrimitiveArrayEncoder := list string.

(** [enc.AppendString(s)] *)
Definition AppendString (enc : PrimitiveArrayEncoder) (s : string)
    : PrimitiveArrayEncoder :=
  (enc ++ [s])%list.

(** The encoders of zapcore the package refers to, and the method
    [TrimmedPath] of [zapcore.EntryCaller]. *)
Class ZapEncoders := {
  CapitalColorLevelEncoder :
    zapcore.Level -> PrimitiveArrayEncoder -> PrimitiveArrayEncoder;
  LowercaseLevelEncoder :
    zapcore.Level -> PrimitiveArrayEncoder -> PrimitiveArrayEncoder;
  TrimmedPath : zapcore.EntryCaller -> string
}.

Section Encoders.

Context {ZE : ZapEncoders}.

Definition TraceLevelEncoder (l : zapcore.Level)
    (enc : PrimitiveArrayEncoder) : PrimitiveArrayEncoder :=
  if (l =? zapcore.DebugLevel - 1)%Z then AppendString enc "TRACE"
  else CapitalColorLevelEncoder l enc.

Definition bracketsCallerEncoder (caller : zapcore.EntryCaller)
    (enc : PrimitiveArrayEncoder) : PrimitiveArrayEncoder :=
  AppendString enc ("[" ++ TrimmedPath caller ++ "]:").

(** The function behind each value of [EncodeLevel] that [newZap]
    assigns. *)
Definition level_encoder (e : zapcore.LevelEncoder)
    : zapcore.Level -> PrimitiveArrayEncoder -> PrimitiveArrayEncoder :=
  match e with
  | zapcore.LowercaseLevelEncoder => LowercaseLevelEncoder
  | zapcore.CapitalColorLevelEncoder => CapitalColorLevelEncoder
  | zapcore.TraceLevelEncoder => TraceLevelEncoder
  end.

(** How a logger built from [cfg] encodes the level of an entry: with
    the [EncodeLevel] of its configuration; nothing is appended when the
    field is unset. *)
Definition encode_level (cfg : zap.Config) (l : zapcore.Level)
    (enc : PrimitiveArrayEncoder) : PrimitiveArrayEncoder :=
  match zapcore.EncodeLevel (zap.EncoderConfig cfg) with
  | Some e => level_encoder e l enc
  | None => enc
  end.

End Encoders.

(* ===================================================================== *)
(** ** Calls on a handle, as data                                         *)
(* ===================================================================== *)

Section Calls.

Context {RT : GoRuntime} {ZB : ZapBackend}.

(** A call of one of the four methods that return a handle. *)
Inductive mutator :=
| call_WithField (key : string) (value : any)
| call_WithError (err : error)
| call_SkipCallers (count : Z)
| call_With (f : list any).

Definition call_mutator (m : mutator) (l : zapLoggerPtr) : M Logger :=
  match m with
  | call_WithField key value => WithField l key value
  | call_WithError err => WithError l err
  | call_SkipCallers count => SkipCallers l count
  | call_With f => With l f
  end.

Definition is_With (m : mutator) : bool :=
  match m with
  | call_With _ => true
  | _ => false
  end.

(** [l.m1(..).m2(..)...]: each call is made on the handle the call before
    returned.  A result that is not a handle of this adapter ends the
    chain. *)
Fixpoint chain (ms : list mutator) (l : zapLoggerPtr) : M Logger :=
  match ms with
  | [] => ret (Some (ZapLogger l))
  | m :: ms' =>
      r <- call_mutator m l ;;
      match r with
      | Some (ZapLogger p) => chain ms' p
      | _ => ret r
      end
  end.

(** A call of one of the write methods of [*zapLogger] that return. *)
Inductive write_method :=
| call_Info (i : list any)
| call_Infof (s : string) (i : list any)
| call_Infow (s : string) (i : list any)
| call_Warn (i : list any)
| call_Warnf (s : string) (i : list any)
| call_Warnw (s : string) (i : list any)
| call_Error (i : list any)
| call_Errorf (s : string) (i : list any)
| call_Errorw (s : string) (i : list any)
| call_Debug (i : list any)
| call_Debugf (s : string) (i : list any)
| call_Debugw (s : string) (i : list any)
| call_Trace (s : string) (i : list any)
| call_Tracef (s : string) (i : list any)
| call_Print (args : list any)
| call_Printf (arg : string) (int : list any).

Definition call_write (m : write_method) (l : zapLoggerPtr) : M unit :=
  match m with
  | call_Info i => Info l i
  | call_Infof s i => Infof l s i
  | call_Infow s i => Infow l s i
  | call_Warn i => Warn l i
  | call_Warnf s i => Warnf l s i
  | call_Warnw s i => Warnw l s i
  | call_Error i => Error l i
  | call_Errorf s i => Errorf l s i
  | call_Errorw s i => Errorw l s i
  | call_Debug i => Debug l i
  | call_Debugf s i => Debugf l s i
  | call_Debugw s i => Debugw l s i
  | call_Trace s i => Trace l s i
  | call_Tracef s i => Tracef l s i
  | call_Print args => Print l args
  | call_Printf arg int => Printf l arg int
  end.

(** The severity a write method is named after; [Print] and [Printf] are
    named after none. *)
Definition severity_of (m : write_method) : option LogLevel :=
  match m with
  | call_Info _ | call_Infof _ _ | call_Infow _ _ => Some InfoLevel
  | call_Warn _ | call_Warnf _ _ | call_Warnw _ _ => Some WarnLevel
  | call_Error _ | call_Errorf _ _ | call_Errorw _ _ => Some ErrorLevel
  | call_Debug _ | call_Debugf _ _ | call_Debugw _ _ => Some DebugLevel
  | call_Trace _ _ | call_Tracef _ _ => Some TraceLevel
  | call_Print _ | call_Printf _ _ => None
  end.

(** The state with one more event in the output. *)
Definition with_event (e : event) (s : State) : State :=
  mkState (def s) (defaultContext s) (LoggerConfig s) (allocated s)
          (output s ++ [e]).

(** The state with the default context set. *)
Definition with_defaultContext (dc : Context) (s : State) : State :=
  mkState (def s) (Some dc) (LoggerConfig s) (allocated s) (output s).

(** The state with the default logger set. *)
Definition with_def (l : Logger) (s : State) : State :=
  mkState l (defaultContext s) (LoggerConfig s) (allocated s) (output s).

(** The default context [FromDefaultContext] reads: the one that is set,
    or the background it sets. *)
Definition default_context_of (s : State) : Context :=
  match defaultContext s with
  | Some dc => dc
  | None => Background
  end.

End Calls.

(** The upper-case texts for which [convLevel (Text2Level _)] is a backend
    level: the eight texts of the [switch] without "PANIC". *)
Definition accepted_texts : list string :=
  ["TRACE"; "DEBUG"; "INFO"; "WARNING"; "ERROR"; "FATAL"; "UNKNOWN"].

Definition accepted (u : string) : bool :=
  existsb (String.eqb u) accepted_texts.

(** An ASCII text written in lower case: ['A'..'Z'] become ['a'..'z']. *)
Definition lowerByte (c : ascii) : ascii :=
  if ((65 <=? GoStrings.byte c) && (GoStrings.byte c <=? 90))%N
  then ascii_of_N (GoStrings.byte c + 32)
  else c.

Definition lower_case (s : string) : string :=
  GoStrings.mapBytes lowerByte s.

(* ===================================================================== *)
(** ** A reference runtime and backend                                    *)
(* ===================================================================== *)

(** The definitions above compute once the two interfaces are given.  The
    instances below are the smallest ones: a runtime that prints strings
    only, and a backend whose loggers remember how they were made. *)

Module Reference.

Fixpoint sprint (args : list any) : string :=
  match args with
  | [] => ""
  | anyString s :: r => s ++ sprint r
  | _ :: r => "?" ++ sprint r
  end.

#[export] Instance runtime : GoRuntime := {
  unicode_MapToUpper := fun s => s;
  fmt_Sprint := sprint;
  fmt_Sprintf := fun f args => f ++ sprint args;
  runtime_Caller := fun skip => mkCallerInfo 0 "main.go" (10 + skip) true
}.

Record logger := mkLogger {
  config : zap.Config;
  fields : list any;
  opts : list zap.Option
}.

#[export] Instance backend : ZapBackend := {
  SugaredLogger := logger;
  Core := zap.Config * list any;
  zap_Build := fun cfg =>
    if zap.well_formed cfg then inl (mkLogger cfg [] [])
    else inr "zap: cannot build the logger";
  zap_With := fun s args => mkLogger (config s) (fields s ++ args) (opts s);
  zap_WithOptions := fun s o => mkLogger (config s) (fields s) (opts s ++ o);
  zap_Check := fun s lvl _ => (zap.Level (config s) <=? lvl)%Z;
  zap_Core := fun s => (config s, fields s)
}.

(** A backend whose [Build] always fails. *)
Definition failing_backend : ZapBackend := {|
  SugaredLogger := unit;
  Core := unit;
  zap_Build := fun _ => inr "zap: no sink";
  zap_With := fun s _ => s;
  zap_WithOptions := fun s _ => s;
  zap_Check := fun _ _ _ => false;
  zap_Core := fun s => s
|}.

(** The handle [newZap] returns in the initial state of the package,
    for JSON output at the given severity and its backend level. *)
Definition handle (level : LogLevel) (lvl : zapcore.Level) : zapLoggerPtr :=
  mkPtr 0
    (mk_zapLogger (mkLogger (newZap_config true level lvl) [] [])
                  (TraceLevel =? level)%N).

Definition trace_handle : zapLoggerPtr := handle TraceLevel zapcore.DebugLevel.
Definition debug_handle : zapLoggerPtr := handle DebugLevel zapcore.DebugLevel.
Definition warn_handle : zapLoggerPtr := handle WarnLevel zapcore.WarnLevel.

(** The initial state after one allocation. *)
Definition after_one : State := mkState None None Config_zero 1 [].

(** A context whose logger key holds a number, under a cancellation. *)
Definition ctx_with_number : Context :=
  WithCancel (WithValue Background loggerKey (ctxOther (anyInt 42))).

(** A context that holds a value under another key only: the same text
    as the logger key, with a named string type. *)
Definition ctx_other_key : Context :=
  WithValue Background (mkKey "main.key" "logger") (ctxOther (anyInt 42)).

(** A state in which a default logger of another type is set. *)
Definition with_mock_default : State :=
  mkState (Some (OtherLogger 7)) None Config_zero 0 [].

(** Encoders that append the number of the level, and a trimmed path
    that is the file of the caller. *)
Definition level_text (l : zapcore.Level) : string :=
  if (l =? zapcore.DebugLevel)%Z then "DEBUG"
  else if (l =? zapcore.InfoLevel)%Z then "INFO"
  else if (l =? zapcore.WarnLevel)%Z then "WARN"
  else if (l =? zapcore.ErrorLevel)%Z then "ERROR"
  else "LEVEL".

#[export] Instance encoders : ZapEncoders := {
  CapitalColorLevelEncoder := fun l enc => AppendString enc ("color:" ++ level_text l);
  LowercaseLevelEncoder := fun l enc => AppendString enc ("lower:" ++ level_text l);
  TrimmedPath := fun c =>
    match c with
    | zapcore.EntryCaller_zero => "undefined"
    | zapcore.NewEntryCaller ci => ci_file ci
    end
}.

(** A state in which the default context holds a number under the logger
    key and a default logger is set. *)
Definition with_number_in_default : State :=
  mkState (Some (OtherLogger 7)) (Some ctx_with_number) Config_zero 0 [].

End Reference.

(* ===================================================================== *)
(** * Properties                                                          *)
(* ===================================================================== *)

Ltac unfold_levels :=
  unfold PanicLevel, FatalLevel, ErrorLevel, WarnLevel, InfoLevel,
    DebugLevel, TraceLevel, LogLevel_zero in *.

(** ** Text2Level *)

Section Text2LevelFacts.

Context {RT : GoRuntime}.

(** On an ASCII text [strings.ToUpper] does not consult the Unicode
    tables. *)
Lemma ToUpper_ascii (s : string) :
  GoStrings.isASCII s = true ->
  GoStrings.ToUpper s = GoStrings.mapBytes GoStrings.upperByte s.
Proof. intros E. unfold GoStrings.ToUpper. now rewrite E. Qed.

(** A text whose upper-case form is one of the eight gets the level of
    its case. *)
Lemma Text2Level_recognized (level t : string) (v : LogLevel) :
  In (t, v) Text2Level_table ->
  GoStrings.ToUpper level = t ->
  Text2Level level = v.
Proof.
  intros HIn HU. unfold Text2Level. rewrite HU.
  simpl in HIn.
  repeat (destruct HIn as [HIn | HIn];
          [injection HIn as <- <-; reflexivity |]).
  contradiction.
Qed.

(** Every other text falls out of the [switch] with the zero value. *)
Lemma Text2Level_unrecognized (level : string) :
  recognized (GoStrings.ToUpper level) = false ->
  Text2Level level = PanicLevel.
Proof.
  unfold recognized, Text2Level. simpl.
  generalize (GoStrings.ToUpper level). intros u H.
  repeat (apply orb_false_elim in H; destruct H as [-> H]).
  reflexivity.
Qed.

(** [Text2Level] never leaves the enumeration. *)
Lemma Text2Level_in_enumeration (level : string) :
  (Text2Level level <= TraceLevel)%N.
Proof.
  unfold Text2Level.
  repeat match goal with
         | |- context [if ?b then _ else _] => destruct b
         end; unfold_levels; lia.
Qed.

Example Text2Level_lower_case :
  Text2Level "warning" = WarnLevel /\ Text2Level "Trace" = TraceLevel.
Proof. split; reflexivity. Qed.

(** C1. [Text2Level] on a text that no [case] names: the empty text,
    "WARN" and "verbose" all come back as [PanicLevel], the zero value
    of [LogLevel], and that is not [InfoLevel]. *)
Theorem Text2Level_unrecognized_is_Panic :
  Text2Level "" = PanicLevel /\
  Text2Level "WARN" = PanicLevel /\
  Text2Level "verbose" = PanicLevel /\
  PanicLevel <> InfoLevel.
Proof. repeat split; try reflexivity. discriminate. Qed.

End Text2LevelFacts.

(** ** convLevel *)

(** [convLevel] gives nil on [PanicLevel] and above [TraceLevel] only. *)
Lemma convLevel_None_iff (level : LogLevel) :
  convLevel level = None <->
  level = PanicLevel \/ (TraceLevel < level)%N.
Proof.
  unfold convLevel.
  repeat match goal with
         | |- context [(level =? ?c)%N] => destruct (N.eqb_spec level c)
         end; unfold_levels; split; intros H;
    try discriminate; try reflexivity; lia.
Qed.

(** C2. [convLevel] is a total function; it returns nil exactly on
    [PanicLevel] and on the values above [TraceLevel], the last of the
    seven levels; [TraceLevel] and [DebugLevel] both give zap's debug
    level and [InfoLevel], [WarnLevel], [ErrorLevel], [FatalLevel] give
    zap's level of the same name. *)
Theorem convLevel_spec :
  (forall level : LogLevel,
      convLevel level = None <->
      level = PanicLevel \/ (TraceLevel < level)%N) /\
  convLevel TraceLevel = Some zapcore.DebugLevel /\
  convLevel DebugLevel = Some zapcore.DebugLevel /\
  convLevel InfoLevel = Some zapcore.InfoLevel /\
  convLevel WarnLevel = Some zapcore.WarnLevel /\
  convLevel ErrorLevel = Some zapcore.ErrorLevel /\
  convLevel FatalLevel = Some zapcore.FatalLevel.
Proof.
  split; [| repeat split].
  intros level. unfold convLevel.
  repeat match goal with
         | |- context [(level =? ?c)%N] => destruct (N.eqb_spec level c)
         end; unfold_levels; split; intros H;
    try discriminate; try reflexivity; lia.
Qed.

(** ** newZap *)

Section NewZapFacts.

Context {ZB : ZapBackend}.

(** Whatever [json] and [level] are, the configuration [newZap] builds
    names a registered encoding, keeps a time encoder beside the time
    key, and writes to the standard output. *)
Lemma newZap_config_well_formed json level lvl :
  zap.well_formed (newZap_config json level lvl) = true.
Proof.
  unfold newZap_config.
  destruct json, (level =? TraceLevel)%N; reflexivity.
Qed.

(** The console changes and the trace encoder, field by field. *)
Lemma newZap_config_encoding json level lvl :
  zap.Encoding (newZap_config json level lvl)
  = (if json then "json" else "console") /\
  zap.Level (newZap_config json level lvl) = lvl /\
  zapcore.EncodeLevel (zap.EncoderConfig (newZap_config json level lvl))
  = Some (if (level =? TraceLevel)%N then zapcore.TraceLevelEncoder
          else if json then zapcore.LowercaseLevelEncoder
               else zapcore.CapitalColorLevelEncoder).
Proof.
  unfold newZap_config.
  destruct json, (level =? TraceLevel)%N; repeat split; reflexivity.
Qed.

(** A level without a backend level stops [newZap] before anything is
    built or allocated. *)
Lemma newZap_wrong_level json level st :
  convLevel level = None ->
  newZap json level st = Ret (None, Some errWrongLevel) st.
Proof. intros E. unfold newZap. rewrite E. reflexivity. Qed.

(** With a backend level and a successful [Build], [newZap] returns the
    struct it allocates. *)
Lemma newZap_built json level lvl logger st :
  convLevel level = Some lvl ->
  zap_Build (newZap_config json level lvl) = inl logger ->
  newZap json level st
  = Ret (Some (ZapLogger
                 (mkPtr (allocated st)
                        (mk_zapLogger logger (TraceLevel =? level)%N))),
         None)
        (mkState (def st) (defaultContext st) (LoggerConfig st)
                 (S (allocated st)) (output st)).
Proof. intros E B. unfold newZap. rewrite E, B. reflexivity. Qed.

(** The error of a failed [Build] is passed on. *)
Lemma newZap_build_error json level lvl err st :
  convLevel level = Some lvl ->
  zap_Build (newZap_config json level lvl) = inr err ->
  newZap json level st = Ret (None, Some err) st.
Proof. intros E B. unfold newZap. rewrite E, B. reflexivity. Qed.

(** [newZap] does not panic. *)
Lemma newZap_returns json level st :
  exists r st', newZap json level st = Ret r st'.
Proof.
  unfold newZap. destruct (convLevel level).
  - destruct (zap_Build _); eexists _, _; reflexivity.
  - eexists _, _; reflexivity.
Qed.

(** [newZap] assigns no package variable and writes nothing. *)
Lemma newZap_frame json level st r st' :
  newZap json level st = Ret r st' ->
  def st' = def st /\
  defaultContext st' = defaultContext st /\
  LoggerConfig st' = LoggerConfig st /\
  output st' = output st.
Proof.
  unfold newZap. destruct (convLevel level).
  - destruct (zap_Build _); cbv [bind new_zapLogger ret];
      intros H; injection H as _ <-; repeat split.
  - cbv [ret]. intros H; injection H as _ <-; repeat split.
Qed.

(** What a handle returned by [newZap] holds. *)
Lemma newZap_handle json level st p st' :
  newZap json level st = Ret (Some (ZapLogger p), None) st' ->
  traceLevel (deref p) = (TraceLevel =? level)%N /\
  addr p = allocated st /\
  allocated st' = S (allocated st) /\
  def st' = def st /\
  defaultContext st' = defaultContext st /\
  LoggerConfig st' = LoggerConfig st /\
  output st' = output st /\
  exists lvl, convLevel level = Some lvl /\
              zap_Build (newZap_config json level lvl) = inl (log (deref p)).
Proof.
  unfold newZap. destruct (convLevel level) as [lvl|] eqn:E;
    [| discriminate].
  destruct (zap_Build _) as [logger|err] eqn:B; [| discriminate].
  cbv [bind new_zapLogger ret]. intros H.
  injection H as <- <-. simpl. repeat split. eauto.
Qed.

(** C3. Given a backend whose [Build] accepts every well-formed
    configuration, [newZap] returns the wrong-level error exactly when
    [convLevel] has no backend level for the severity, which is for
    [PanicLevel] and for the values beyond the enumeration; for every
    other severity it returns a non-nil handle and a nil error. *)
Theorem newZap_fails_iff_no_backend_level
    (Build_ok : forall cfg, zap.well_formed cfg = true ->
                            exists s, zap_Build cfg = inl s)
    (json : bool) (level : LogLevel) (st : State) :
  exists r st',
    newZap json level st = Ret r st' /\
    (r = (None, Some errWrongLevel) <-> convLevel level = None) /\
    (snd r <> None <-> level = PanicLevel \/ (TraceLevel < level)%N) /\
    (convLevel level <> None ->
     exists p, r = (Some (ZapLogger p), None)).
Proof.
  pose proof convLevel_None_iff as Hnone.
  destruct (convLevel level) as [lvl|] eqn:E.
  - destruct (Build_ok _ (newZap_config_well_formed json level lvl))
      as [logger B].
    eexists _, _. split; [exact (newZap_built _ _ _ _ st E B) |].
    simpl. repeat split; try discriminate; try congruence.
    + intros H. apply Hnone in H. congruence.
    + eauto.
  - eexists _, _. split; [exact (newZap_wrong_level json _ st E) |].
    repeat split; try reflexivity; try congruence.
    + intros _. apply Hnone. exact E.
    + simpl. discriminate.
Qed.

End NewZapFacts.

(** ** Check and the methods that return a handle *)

Section HandleFacts.

Context {ZB : ZapBackend}.

(** [Check] at the trace level reads the flag of the struct. *)
Lemma Check_Trace_is_flag (l : zapLoggerPtr) :
  Check l TraceLevel = traceLevel (deref l).
Proof. reflexivity. Qed.

(** C4. A handle that [newZap] returned answers [Check(TraceLevel)]
    with true exactly when it was built for [TraceLevel]; the answer is
    the flag kept in the struct, and stays the same when the backend
    logger of the struct is replaced by any other one. *)
Theorem Check_Trace_iff_built_at_Trace
    (json : bool) (level : LogLevel) (st st' : State) (p : zapLoggerPtr)
    (Hbuilt : newZap json level st = Ret (Some (ZapLogger p), None) st') :
  (Check p TraceLevel = true <-> level = TraceLevel) /\
  Check p TraceLevel = traceLevel (deref p) /\
  (forall (s : SugaredLogger) (a : nat),
      Check (mkPtr a (mk_zapLogger s (traceLevel (deref p)))) TraceLevel
      = Check p TraceLevel).
Proof.
  destruct (newZap_handle _ _ _ _ _ Hbuilt) as [Hflag _].
  rewrite Check_Trace_is_flag, Hflag.
  split; [split | split].
  - intros H. apply N.eqb_eq in H. congruence.
  - intros ->. apply N.eqb_refl.
  - reflexivity.
  - intros s a. reflexivity.
Qed.

(** [Check] at each of the five levels between fatal and debug asks the
    backend about the level [convLevel] names. *)
Lemma Check_native (l : zapLoggerPtr) :
  Check l DebugLevel = zap_Check (log (deref l)) zapcore.DebugLevel "" /\
  Check l InfoLevel = zap_Check (log (deref l)) zapcore.InfoLevel "" /\
  Check l WarnLevel = zap_Check (log (deref l)) zapcore.WarnLevel "" /\
  Check l ErrorLevel = zap_Check (log (deref l)) zapcore.ErrorLevel "" /\
  Check l FatalLevel = zap_Check (log (deref l)) zapcore.FatalLevel "".
Proof. repeat split. Qed.

(** C8. At a level other than [TraceLevel], [Check] is false when
    [convLevel] gives nil, as it does for [PanicLevel] and beyond the
    enumeration, and is otherwise what the backend's own check says for
    the converted level and the empty message. *)
Theorem Check_non_Trace
    (l : zapLoggerPtr) (level : LogLevel) (Hlevel : level <> TraceLevel) :
  Check l level
  = match convLevel level with
    | None => false
    | Some lvl => zap_Check (log (deref l)) lvl ""
    end /\
  Check l PanicLevel = false /\
  ((TraceLevel < level)%N -> Check l level = false).
Proof.
  split; [| split].
  - unfold Check. destruct (N.eqb_spec level TraceLevel); congruence.
  - reflexivity.
  - intros H. unfold Check.
    destruct (N.eqb_spec level TraceLevel); [congruence |].
    rewrite (proj2 (convLevel_None_iff level)); auto.
Qed.

(** The four methods allocate one struct and return a pointer to it. *)
Lemma WithField_returns l key value st :
  WithField l key value st
  = Ret (Some (ZapLogger
                 (mkPtr (allocated st)
                    (mk_zapLogger
                       (zap_With (log (deref l)) [anyString key; value])
                       (traceLevel (deref l))))))
        (mkState (def st) (defaultContext st) (LoggerConfig st)
                 (S (allocated st)) (output st)).
Proof. reflexivity. Qed.

Lemma WithError_returns l err st :
  WithError l err st
  = Ret (Some (ZapLogger
                 (mkPtr (allocated st)
                    (mk_zapLogger
                       (zap_With (log (deref l))
                                 [anyString "error"; anyError err])
                       (traceLevel (deref l))))))
        (mkState (def st) (defaultContext st) (LoggerConfig st)
                 (S (allocated st)) (output st)).
Proof. reflexivity. Qed.

Lemma SkipCallers_returns l count st :
  SkipCallers l count st
  = Ret (Some (ZapLogger
                 (mkPtr (allocated st)
                    (mk_zapLogger
                       (zap_WithOptions (log (deref l))
                                        [zap.AddCallerSkip count])
                       (traceLevel (deref l))))))
        (mkState (def st) (defaultContext st) (LoggerConfig st)
                 (S (allocated st)) (output st)).
Proof. reflexivity. Qed.

Lemma With_returns l f st :
  With l f st
  = Ret (Some (ZapLogger
                 (mkPtr (allocated st)
                    (mk_zapLogger
                       (zap_With (log (deref l)) [anySlice f]) false))))
        (mkState (def st) (defaultContext st) (LoggerConfig st)
                 (S (allocated st)) (output st)).
Proof. reflexivity. Qed.

(** C7. [WithField], [WithError] and [SkipCallers] return a new handle
    with the trace flag of the receiver; [With] returns a new handle
    whose trace flag is false.  On a handle built by [newZap] for
    [TraceLevel], [Check(TraceLevel)] is therefore true after
    [WithField] and false after [With]. *)
Theorem With_drops_traceLevel (l : zapLoggerPtr) (st : State) :
  (forall key value, exists p st',
      WithField l key value st = Ret (Some (ZapLogger p)) st' /\
      addr p = allocated st /\
      traceLevel (deref p) = traceLevel (deref l)) /\
  (forall err, exists p st',
      WithError l err st = Ret (Some (ZapLogger p)) st' /\
      addr p = allocated st /\
      traceLevel (deref p) = traceLevel (deref l)) /\
  (forall count, exists p st',
      SkipCallers l count st = Ret (Some (ZapLogger p)) st' /\
      addr p = allocated st /\
      traceLevel (deref p) = traceLevel (deref l)) /\
  (forall f, exists p st',
      With l f st = Ret (Some (ZapLogger p)) st' /\
      addr p = allocated st /\
      traceLevel (deref p) = false) /\
  (forall json st0 key value f,
      newZap json TraceLevel st0 = Ret (Some (ZapLogger l), None) st ->
      exists pf sf pw sw,
        WithField l key value st = Ret (Some (ZapLogger pf)) sf /\
        Check pf TraceLevel = true /\
        With l f st = Ret (Some (ZapLogger pw)) sw /\
        Check pw TraceLevel = false /\
        Check l TraceLevel = true).
Proof.
  repeat split.
  - intros key value. eexists _, _.
    split; [apply WithField_returns | split; reflexivity].
  - intros err. eexists _, _.
    split; [apply WithError_returns | split; reflexivity].
  - intros count. eexists _, _.
    split; [apply SkipCallers_returns | split; reflexivity].
  - intros f. eexists _, _.
    split; [apply With_returns | split; reflexivity].
  - intros json st0 key value f Hbuilt.
    destruct (newZap_handle _ _ _ _ _ Hbuilt) as [Hflag _].
    rewrite N.eqb_refl in Hflag.
    eexists _, _, _, _.
    split; [apply WithField_returns |].
    split; [rewrite Check_Trace_is_flag; exact Hflag |].
    split; [apply With_returns |].
    split; [reflexivity |].
    rewrite Check_Trace_is_flag. exact Hflag.
Qed.

End HandleFacts.

(** ** Print and trace *)

Section PrintFacts.

Context {RT : GoRuntime} {ZB : ZapBackend}.

(** The level of a trace record is below every level of zap, and no
    severity is converted to it. *)
Lemma traceEntryLevel_not_native :
  traceEntryLevel = (-2)%Z /\
  ~ In traceEntryLevel zapcore.native_levels /\
  (forall level, convLevel level <> Some traceEntryLevel).
Proof.
  split; [reflexivity |]. split.
  - cbv. intuition discriminate.
  - intros level. unfold convLevel.
    repeat match goal with
           | |- context [if ?b then _ else _] => destruct b
           end; discriminate.
Qed.

(** [trace] hands one entry to the core of the handle's logger. *)
Lemma trace_writes_one_entry (l : zapLoggerPtr) (msg : string) (st : State) :
  trace l msg st
  = Ret tt
      (mkState (def st) (defaultContext st) (LoggerConfig st) (allocated st)
         (output st ++
          [CoreWrite
             (zap_Core (zap_WithOptions (log (deref l)) options))
             (zapcore.mkEntry traceEntryLevel 0 "" msg
                (zapcore.NewEntryCaller (runtime_Caller callerSkipOffset))
                "")])).
Proof. reflexivity. Qed.

(** C10. [Print] makes no leveled call on the backend: for every
    argument list it adds to the output exactly one entry, written
    straight to the core of the handle's logger, whose message is
    [fmt.Sprint] of the arguments, whose level is one below zap's debug
    level (a level no leveled call writes at and no severity converts
    to), and whose caller is [runtime.Caller] at depth 2; the trace flag
    of the handle plays no part. *)
Theorem Print_emits_trace_record
    (l : zapLoggerPtr) (args : list any) (st : State) :
  Print l args st
  = Ret tt
      (mkState (def st) (defaultContext st) (LoggerConfig st) (allocated st)
         (output st ++
          [CoreWrite
             (zap_Core (zap_WithOptions (log (deref l)) options))
             (zapcore.mkEntry (zapcore.DebugLevel - 1)%Z 0 ""
                (fmt_Sprint args)
                (zapcore.NewEntryCaller (runtime_Caller 2))
                "")])) /\
  Print l args = trace l (fmt_Sprint args) /\
  ~ In (zapcore.DebugLevel - 1)%Z zapcore.native_levels /\
  (forall level, convLevel level <> Some (zapcore.DebugLevel - 1)%Z).
Proof.
  split; [reflexivity |]. split; [reflexivity |].
  exact (proj2 traceEntryLevel_not_native).
Qed.

(** A leveled method, for comparison, makes one leveled call. *)
Lemma Info_makes_leveled_call (l : zapLoggerPtr) (i : list any) (st : State) :
  Info l i st
  = Ret tt
      (mkState (def st) (defaultContext st) (LoggerConfig st) (allocated st)
         (output st ++
          [LeveledWrite (zap_WithOptions (log (deref l)) options)
                        zapcore.InfoLevel (Plain i)])).
Proof. reflexivity. Qed.

End PrintFacts.

(** ** The context chain and the default logger *)

Section PackageFacts.

Context {RT : GoRuntime} {ZB : ZapBackend}.

Lemma ctxKey_eqb_refl (k : ctxKey) : ctxKey_eqb k k = true.
Proof. unfold ctxKey_eqb. now rewrite !String.eqb_refl. Qed.

(** The value attached last under a key is the one [Value] finds. *)
Lemma Value_WithValue (ctx : Context) (k : ctxKey) (v : ctxValue) :
  Value (WithValue ctx k v) k = v.
Proof. simpl. now rewrite ctxKey_eqb_refl. Qed.

(** C5. [FromContext] looks at the value the context holds under the
    logger key.  A value that is not a [Logger] ends the call with nil
    and leaves every package variable as it was; no value (nil) makes
    the call the same as [FromDefaultContext]; a [Logger] is returned as
    it is. *)
Theorem FromContext_cases (ctx : Context) (st : State) :
  match Value ctx loggerKey with
  | ctxOther _ => FromContext ctx st = Ret None st
  | ctxNil => FromContext ctx st = FromDefaultContext st
  | ctxLogger l => FromContext ctx st = Ret (Some l) st
  end.
Proof.
  unfold FromContext. destruct (Value ctx loggerKey); reflexivity.
Qed.

(** C9. A non-nil [Logger] attached by [ToContext] is what
    [FromContext] returns from the new context, whatever the parent
    context and the package variables hold; the variables are not
    touched. *)
Theorem FromContext_ToContext
    (ctx : Context) (l : LoggerImpl) (st : State) :
  FromContext (ToContext ctx (Some l)) st = Ret (Some l) st.
Proof.
  unfold FromContext, ToContext. rewrite Value_WithValue. reflexivity.
Qed.

(** A nil [Logger] attached by [ToContext] hides the loggers of the
    parent and sends [FromContext] to the default chain. *)
Lemma FromContext_ToContext_nil (ctx : Context) (st : State) :
  FromContext (ToContext ctx None) st = FromDefaultContext st.
Proof.
  unfold FromContext, ToContext. rewrite Value_WithValue. reflexivity.
Qed.

(** [GetDefaultLogger] with a default set. *)
Lemma GetDefaultLogger_set (st : State) (d : LoggerImpl) :
  def st = Some d -> GetDefaultLogger st = Ret (Some d) st.
Proof.
  intros E. unfold GetDefaultLogger, bind, get. rewrite E. reflexivity.
Qed.

Lemma with_default_level_frame (st : State) :
  def (with_default_level st) = def st /\
  defaultContext (with_default_level st) = defaultContext st /\
  allocated (with_default_level st) = allocated st /\
  output (with_default_level st) = output st /\
  IsJson (LoggerConfig (with_default_level st)) = IsJson (LoggerConfig st) /\
  Level (LoggerConfig (with_default_level st))
  = (if Level (LoggerConfig st) =? "" then "DEBUG"
     else Level (LoggerConfig st)).
Proof.
  unfold with_default_level.
  destruct (Level (LoggerConfig st) =? ""); repeat split.
Qed.

(** [GetDefaultLogger] without a default: the level is defaulted, then
    [newZap] runs on the global configuration and its error, if any, is
    the value of the panic. *)
Lemma GetDefaultLogger_lazy (st : State) :
  def st = None ->
  GetDefaultLogger st
  = let st1 := with_default_level st in
    match newZap (IsJson (LoggerConfig st1))
                 (Text2Level (Level (LoggerConfig st1))) st1 with
    | Ret (l, None) st2 => Ret l st2
    | Ret (_, Some err) st2 => Panicked err st2
    | Panicked e st2 => Panicked e st2
    end.
Proof.
  destruct st as [d dc cfg a o]. simpl. intros ->.
  unfold GetDefaultLogger, with_default_level, bind, get. simpl.
  destruct (Level cfg =? ""); simpl;
    match goal with
    | |- context [newZap ?j ?l ?s] =>
        destruct (newZap j l s) as [[l0 [e|]] s2|e s2]
    end; reflexivity.
Qed.

(** The handle of the lazy path is a new struct and is not stored. *)
Lemma GetDefaultLogger_lazy_result (st st' : State) (l : Logger) :
  def st = None ->
  GetDefaultLogger st = Ret l st' ->
  def st' = None /\
  allocated st' = S (allocated st) /\
  exists p, l = Some (ZapLogger p) /\ addr p = allocated st.
Proof.
  intros E H. rewrite (GetDefaultLogger_lazy st E) in H. cbv zeta in H.
  destruct (with_default_level_frame st) as (Hd & _ & Ha & _).
  destruct (newZap _ _ _) as [[l0 [e|]] s2|e s2] eqn:N; try discriminate.
  injection H as <- <-.
  unfold newZap in N.
  destruct (convLevel _); [| discriminate].
  destruct (zap_Build _); [| discriminate].
  cbv [bind new_zapLogger ret] in N. injection N as <- <-. simpl.
  rewrite Hd, Ha. eauto.
Qed.

(** Two calls in a row on the lazy path return two different handles. *)
Lemma GetDefaultLogger_fresh (st s1 s2 : State) (l1 l2 : Logger) :
  def st = None ->
  GetDefaultLogger st = Ret l1 s1 ->
  GetDefaultLogger s1 = Ret l2 s2 ->
  l1 <> l2 /\ def s2 = None.
Proof.
  intros E H1 H2.
  destruct (GetDefaultLogger_lazy_result _ _ _ E H1)
    as (E1 & A1 & p1 & -> & P1).
  destruct (GetDefaultLogger_lazy_result _ _ _ E1 H2)
    as (E2 & A2 & p2 & -> & P2).
  split; [| exact E2].
  intros H. injection H as H. rewrite H in P1. lia.
Qed.

(** C6. [GetDefaultLogger] returns the default as it is when one is
    set.  Otherwise it replaces an empty [LoggerConfig.Level] by "DEBUG"
    and calls [newZap] on the global configuration: the handle is
    returned without being stored in [def], an error of [newZap] becomes
    a panic with that error, and a second call builds another handle,
    different from the first. *)
Theorem GetDefaultLogger_spec (st : State) :
  match def st with
  | Some d => GetDefaultLogger st = Ret (Some d) st
  | None =>
      let st1 := with_default_level st in
      match newZap (IsJson (LoggerConfig st1))
                   (Text2Level (Level (LoggerConfig st1))) st1 with
      | Ret (l, None) st2 =>
          GetDefaultLogger st = Ret l st2 /\ def st2 = None
      | Ret (_, Some err) st2 => GetDefaultLogger st = Panicked err st2
      | Panicked e st2 => GetDefaultLogger st = Panicked e st2
      end /\
      Level (LoggerConfig st1)
      = (if Level (LoggerConfig st) =? "" then "DEBUG"
         else Level (LoggerConfig st)) /\
      LoggerConfig (final_state (GetDefaultLogger st)) = LoggerConfig st1 /\
      (forall l1 s1 l2 s2,
          GetDefaultLogger st = Ret l1 s1 ->
          GetDefaultLogger s1 = Ret l2 s2 ->
          l1 <> l2 /\ def s1 = None /\ def s2 = None)
  end.
Proof.
  destruct (def st) as [d|] eqn:E.
  - apply GetDefaultLogger_set, E.
  - cbv zeta. split; [| split; [| split]].
    + pose proof (GetDefaultLogger_lazy st E) as H. cbv zeta in H.
      destruct (newZap _ _ _) as [[l0 [e|]] s2|e s2] eqn:N; auto.
      split; [exact H |].
      exact (proj1 (GetDefaultLogger_lazy_result _ _ _ E H)).
    + apply with_default_level_frame.
    + rewrite (GetDefaultLogger_lazy st E). cbv zeta.
      destruct (newZap _ _ _) as [[l0 [e|]] s2|e s2] eqn:N; simpl.
      * apply (newZap_frame _ _ _ _ _ N).
      * apply (newZap_frame _ _ _ _ _ N).
      * pose proof (newZap_returns
                      (IsJson (LoggerConfig (with_default_level st)))
                      (Text2Level (Level (LoggerConfig (with_default_level st))))
                      (with_default_level st)) as (r & s' & R).
        congruence.
    + intros l1 s1 l2 s2 H1 H2.
      destruct (GetDefaultLogger_fresh _ _ _ _ _ E H1 H2) as [Hne Hd2].
      repeat split; auto.
      exact (proj1 (GetDefaultLogger_lazy_result _ _ _ E H1)).
Qed.

End PackageFacts.

(* ===================================================================== *)
(** * The properties on the reference backend                             *)
(* ===================================================================== *)

Section ReferenceRuns.

Import Reference.

(** The reference backend builds every well-formed configuration. *)
Lemma Reference_Build_ok (cfg : zap.Config) :
  zap.well_formed cfg = true ->
  exists s, zap_Build (ZapBackend := backend) cfg = inl s.
Proof. intros H. simpl. rewrite H. eauto. Qed.

(** The two calls of the test of [newZap]. *)
Example newZap_Info_and_100 :
  newZap true InfoLevel State_init
  = Ret (Some (ZapLogger (handle InfoLevel zapcore.InfoLevel)), None)
        after_one /\
  newZap true 100%N State_init = Ret (None, Some errWrongLevel) State_init.
Proof. split; reflexivity. Qed.

(** A configuration with the level text "WARNING": warnings are enabled,
    informational and trace records are not. *)
Example NewLogger_WARNING :
  NewLogger (mkConfig "WARNING" true) State_init
  = Ret (Some (ZapLogger warn_handle), None) after_one /\
  Check warn_handle WarnLevel = true /\
  Check warn_handle InfoLevel = false /\
  Check warn_handle TraceLevel = false.
Proof. repeat split. Qed.

(** A level text outside the eight ends in the wrong-level error of
    [newZap], and in a panic on the lazy path of [GetDefaultLogger]. *)
Example NewLogger_unrecognized_text :
  NewLogger (mkConfig "verbose" true) State_init
  = Ret (None, Some errWrongLevel) State_init /\
  NewLogger (mkConfig "" true) State_init
  = Ret (None, Some errWrongLevel) State_init /\
  GetDefaultLogger (mkState None None (mkConfig "warn" false) 0 [])
  = Panicked errWrongLevel (mkState None None (mkConfig "warn" false) 0 []).
Proof. repeat split. Qed.

(** A failing [Build] on the lazy path is a panic with its error. *)
Example GetDefaultLogger_build_panics :
  GetDefaultLogger (ZB := failing_backend) State_init
  = Panicked "zap: no sink"
      (mkState None None (mkConfig "DEBUG" false) 0 []).
Proof. reflexivity. Qed.

(** A number under the logger key ends [FromContext] with nil although
    a default logger is set; a context without the key reaches it. *)
Example FromContext_number_vs_missing :
  FromContext ctx_with_number with_mock_default
  = Ret None with_mock_default /\
  FromContext ctx_other_key with_mock_default
  = Ret (Some (OtherLogger 7))
        (mkState (Some (OtherLogger 7)) (Some Background) Config_zero 0 []).
Proof. split; reflexivity. Qed.

(** The reference backend meets the assumption on [Build]; [newZap] at
    [InfoLevel] in the initial state. *)
Lemma newZap_fails_iff_no_backend_level_witness :
  exists r st',
    newZap true InfoLevel State_init = Ret r st' /\
    (r = (None, Some errWrongLevel) <-> convLevel InfoLevel = None) /\
    (snd r <> None <->
     InfoLevel = PanicLevel \/ (TraceLevel < InfoLevel)%N) /\
    (convLevel InfoLevel <> None ->
     exists p, r = (Some (ZapLogger p), None)).
Proof.
  apply (newZap_fails_iff_no_backend_level (ZB := backend)).
  intros cfg H. simpl. rewrite H. exists (mkLogger cfg [] []). reflexivity.
Defined.

(** A handle built for [TraceLevel] and one built for [DebugLevel]: the
    backend of the second enables debug records, its trace check is
    false all the same. *)
Lemma Check_Trace_iff_built_at_Trace_witness :
  (newZap true TraceLevel State_init
   = Ret (Some (ZapLogger trace_handle), None) after_one /\
   Check trace_handle TraceLevel = true) /\
  (newZap true DebugLevel State_init
   = Ret (Some (ZapLogger debug_handle), None) after_one /\
   Check debug_handle DebugLevel = true /\
   Check debug_handle TraceLevel <> true).
Proof.
  split.
  - split; [reflexivity |].
    apply (Check_Trace_iff_built_at_Trace
             true TraceLevel State_init after_one trace_handle);
      reflexivity.
  - split; [reflexivity |]. split; [reflexivity |].
    intros H.
    apply (Check_Trace_iff_built_at_Trace
             true DebugLevel State_init after_one debug_handle) in H;
      [discriminate | reflexivity].
Defined.

(** [Check] at [InfoLevel] and at [PanicLevel] on a handle built for
    [WarnLevel]. *)
Lemma Check_non_Trace_witness :
  InfoLevel <> TraceLevel /\
  Check warn_handle InfoLevel
  = zap_Check (log (deref warn_handle)) zapcore.InfoLevel "" /\
  Check warn_handle PanicLevel = false.
Proof.
  split; [discriminate |].
  destruct (Check_non_Trace warn_handle InfoLevel) as (H1 & H2 & _);
    [discriminate | split; assumption].
Defined.

(** [WithField] and [With] on the handle built for [TraceLevel]. *)
Lemma With_drops_traceLevel_witness :
  newZap true TraceLevel State_init
  = Ret (Some (ZapLogger trace_handle), None) after_one /\
  exists pf sf pw sw,
    WithField trace_handle "user" (anyInt 7) after_one
    = Ret (Some (ZapLogger pf)) sf /\
    Check pf TraceLevel = true /\
    With trace_handle [anyString "user"; anyInt 7] after_one
    = Ret (Some (ZapLogger pw)) sw /\
    Check pw TraceLevel = false /\
    Check trace_handle TraceLevel = true.
Proof.
  split; [reflexivity |].
  apply (proj2 (proj2 (proj2 (proj2
           (With_drops_traceLevel trace_handle after_one))))
           true State_init).
  reflexivity.
Defined.

(** Two calls of [GetDefaultLogger] from the initial state. *)
Lemma GetDefaultLogger_spec_witness :
  def (State_init (ZB := backend)) = None /\
  exists l1 s1 l2 s2,
    GetDefaultLogger State_init = Ret l1 s1 /\
    GetDefaultLogger s1 = Ret l2 s2 /\
    l1 <> l2 /\ def s1 = None /\ def s2 = None.
Proof.
  split; [reflexivity |].
  eexists _, _, _, _.
  split; [reflexivity |]. split; [reflexivity |].
  apply (proj2 (proj2 (proj2 (GetDefaultLogger_spec State_init))));
    reflexivity.
Defined.

End ReferenceRuns.

(* ===================================================================== *)
(** * Further properties of the level model                               *)
(* ===================================================================== *)

Ltac unfold_zap_levels :=
  unfold zapcore.DebugLevel, zapcore.InfoLevel, zapcore.WarnLevel,
    zapcore.ErrorLevel, zapcore.FatalLevel in *.

(** The pairs of [convLevel], read off its [switch]. *)
Lemma convLevel_Some (level : LogLevel) (lvl : zapcore.Level) :
  convLevel level = Some lvl ->
  (level = TraceLevel /\ lvl = zapcore.DebugLevel) \/
  (level = DebugLevel /\ lvl = zapcore.DebugLevel) \/
  (level = InfoLevel /\ lvl = zapcore.InfoLevel) \/
  (level = WarnLevel /\ lvl = zapcore.WarnLevel) \/
  (level = ErrorLevel /\ lvl = zapcore.ErrorLevel) \/
  (level = FatalLevel /\ lvl = zapcore.FatalLevel).
Proof.
  unfold convLevel.
  repeat match goal with
         | |- context [(level =? ?c)%N] => destruct (N.eqb_spec level c)
         end; intros H; try discriminate; injection H as <-; tauto.
Qed.

(** X1. On the severities that have a backend level, [convLevel] turns
    the order around (a smaller [LogLevel] is more severe, a larger zap
    level is more severe), stays between zap's debug and fatal levels,
    and sends two different severities to the same backend level only
    when they are [DebugLevel] and [TraceLevel]. *)
Theorem convLevel_reverses_order
    (a b : LogLevel) (la lb : zapcore.Level)
    (Ha : convLevel a = Some la) (Hb : convLevel b = Some lb) :
  ((a <= b)%N -> (lb <= la)%Z) /\
  ((la < lb)%Z -> (b < a)%N) /\
  (zapcore.DebugLevel <= la <= zapcore.FatalLevel)%Z /\
  (la = lb ->
   a = b \/ (a = DebugLevel /\ b = TraceLevel)
         \/ (a = TraceLevel /\ b = DebugLevel)).
Proof.
  apply convLevel_Some in Ha. apply convLevel_Some in Hb.
  unfold_levels. unfold_zap_levels.
  repeat match goal with
         | H : _ \/ _ |- _ => destruct H
         | H : _ /\ _ |- _ => destruct H
         end; subst; repeat split; intros; try lia; auto.
Qed.

Lemma convLevel_reverses_order_witness :
  ((ErrorLevel <= InfoLevel)%N ->
   (zapcore.InfoLevel <= zapcore.ErrorLevel)%Z) /\
  ((zapcore.ErrorLevel < zapcore.InfoLevel)%Z ->
   (InfoLevel < ErrorLevel)%N) /\
  (zapcore.DebugLevel <= zapcore.ErrorLevel <= zapcore.FatalLevel)%Z /\
  (zapcore.ErrorLevel = zapcore.InfoLevel ->
   ErrorLevel = InfoLevel \/ (ErrorLevel = DebugLevel /\ InfoLevel = TraceLevel)
   \/ (ErrorLevel = TraceLevel /\ InfoLevel = DebugLevel)).
Proof.
  apply (convLevel_reverses_order ErrorLevel InfoLevel); reflexivity.
Defined.

Section CaseFacts.

Context {RT : GoRuntime}.

Lemma upperByte_idem (c : ascii) :
  GoStrings.upperByte (GoStrings.upperByte c) = GoStrings.upperByte c.
Proof. destruct c as [[] [] [] [] [] [] [] []]; reflexivity. Qed.

Lemma upperByte_lowerByte (c : ascii) :
  GoStrings.upperByte (lowerByte c) = GoStrings.upperByte c.
Proof. destruct c as [[] [] [] [] [] [] [] []]; reflexivity. Qed.

Lemma upperByte_keeps_ascii (c : ascii) :
  (GoStrings.byte (GoStrings.upperByte c) <? GoStrings.RuneSelf)%N
  = (GoStrings.byte c <? GoStrings.RuneSelf)%N.
Proof. destruct c as [[] [] [] [] [] [] [] []]; reflexivity. Qed.

Lemma lowerByte_keeps_ascii (c : ascii) :
  (GoStrings.byte (lowerByte c) <? GoStrings.RuneSelf)%N
  = (GoStrings.byte c <? GoStrings.RuneSelf)%N.
Proof. destruct c as [[] [] [] [] [] [] [] []]; reflexivity. Qed.

Lemma isASCII_upper (s : string) :
  GoStrings.isASCII (GoStrings.mapBytes GoStrings.upperByte s)
  = GoStrings.isASCII s.
Proof.
  induction s as [|c s IH]; [reflexivity |].
  cbn [GoStrings.mapBytes GoStrings.isASCII].
  now rewrite upperByte_keeps_ascii, IH.
Qed.

Lemma isASCII_lower (s : string) :
  GoStrings.isASCII (lower_case s) = GoStrings.isASCII s.
Proof.
  unfold lower_case. induction s as [|c s IH]; [reflexivity |].
  cbn [GoStrings.mapBytes GoStrings.isASCII].
  now rewrite lowerByte_keeps_ascii, IH.
Qed.

Lemma mapBytes_upper_idem (s : string) :
  GoStrings.mapBytes GoStrings.upperByte
    (GoStrings.mapBytes GoStrings.upperByte s)
  = GoStrings.mapBytes GoStrings.upperByte s.
Proof.
  induction s as [|c s IH]; [reflexivity |].
  cbn [GoStrings.mapBytes]. now rewrite upperByte_idem, IH.
Qed.

Lemma mapBytes_upper_lower (s : string) :
  GoStrings.mapBytes GoStrings.upperByte (lower_case s)
  = GoStrings.mapBytes GoStrings.upperByte s.
Proof.
  unfold lower_case. induction s as [|c s IH]; [reflexivity |].
  cbn [GoStrings.mapBytes]. now rewrite upperByte_lowerByte, IH.
Qed.

(** On ASCII texts [strings.ToUpper] is idempotent and does not see the
    case of its argument. *)
Lemma ToUpper_ascii_case (s : string) :
  GoStrings.isASCII s = true ->
  GoStrings.ToUpper (GoStrings.ToUpper s) = GoStrings.ToUpper s /\
  GoStrings.ToUpper (lower_case s) = GoStrings.ToUpper s.
Proof.
  intros E. split.
  - rewrite (ToUpper_ascii s E).
    rewrite ToUpper_ascii by (now rewrite isASCII_upper).
    apply mapBytes_upper_idem.
  - rewrite (ToUpper_ascii s E).
    rewrite ToUpper_ascii by (now rewrite isASCII_lower).
    apply mapBytes_upper_lower.
Qed.

(** X2. [Text2Level] does not see the case of an ASCII text: the text,
    its upper-case form and its lower-case form get the same level, and
    so do any two ASCII texts with the same upper-case form. *)
Theorem Text2Level_case_insensitive (s : string)
    (Hascii : GoStrings.isASCII s = true) :
  Text2Level (GoStrings.ToUpper s) = Text2Level s /\
  Text2Level (lower_case s) = Text2Level s /\
  (forall t, GoStrings.isASCII t = true ->
             GoStrings.mapBytes GoStrings.upperByte t
             = GoStrings.mapBytes GoStrings.upperByte s ->
             Text2Level t = Text2Level s).
Proof.
  destruct (ToUpper_ascii_case s Hascii) as [Hu Hl].
  unfold Text2Level. rewrite Hu, Hl. split; [reflexivity |].
  split; [reflexivity |].
  intros t Ht E. rewrite (ToUpper_ascii t Ht), (ToUpper_ascii s Hascii), E.
  reflexivity.
Qed.

(** What [convLevel] makes of the level of a text. *)
Lemma Text2Level_accepted (level : string) :
  if accepted (GoStrings.ToUpper level)
  then exists lvl, convLevel (Text2Level level) = Some lvl
  else convLevel (Text2Level level) = None.
Proof.
  unfold accepted, Text2Level. generalize (GoStrings.ToUpper level).
  intros u. cbn [existsb accepted_texts].
  repeat match goal with
         | |- context [u =? ?c] =>
             destruct (String.eqb_spec u c);
             [subst u; cbn; eauto |]
         end.
  cbn. reflexivity.
Qed.

(** Only the text "TRACE" gets [TraceLevel]. *)
Lemma Text2Level_Trace (level : string) :
  (TraceLevel =? Text2Level level)%N = (GoStrings.ToUpper level =? "TRACE").
Proof.
  unfold Text2Level.
  repeat match goal with
         | |- context [if ?b then _ else _] => destruct b
         end; reflexivity.
Qed.

End CaseFacts.

Lemma Text2Level_case_insensitive_witness :
  GoStrings.isASCII "Warning" = true /\
  @Text2Level Reference.runtime (lower_case "Warning")
  = @Text2Level Reference.runtime "Warning".
Proof.
  split; [reflexivity |].
  exact (proj1 (proj2 (Text2Level_case_insensitive
                         (RT := Reference.runtime) "Warning" eq_refl))).
Defined.

(* ===================================================================== *)
(** * Further properties of construction and of the defaults              *)
(* ===================================================================== *)

Section ConstructionFacts.

Context {RT : GoRuntime} {ZB : ZapBackend}.

(** X3. Given a backend whose [Build] accepts every well-formed
    configuration, [NewLogger] returns a new handle and a nil error when
    the upper-case form of the level text is one of TRACE, DEBUG, INFO,
    WARNING, ERROR, FATAL, UNKNOWN, and the trace flag of the handle is
    set exactly for TRACE.  For every other text, "PANIC" and the empty
    text among them, it returns nil and the wrong-level error and leaves
    the state as it was. *)
Theorem NewLogger_accepts
    (Build_ok : forall cfg, zap.well_formed cfg = true ->
                            exists s, zap_Build cfg = inl s)
    (conf : Config) (st : State) :
  if accepted (GoStrings.ToUpper (Level conf))
  then exists p,
      NewLogger conf st
      = Ret (Some (ZapLogger p), None)
            (mkState (def st) (defaultContext st) (LoggerConfig st)
                     (S (allocated st)) (output st)) /\
      addr p = allocated st /\
      Check p TraceLevel = (GoStrings.ToUpper (Level conf) =? "TRACE")
  else NewLogger conf st = Ret (None, Some errWrongLevel) st.
Proof.
  pose proof (Text2Level_accepted (Level conf)) as HT.
  unfold NewLogger.
  destruct (accepted (GoStrings.ToUpper (Level conf))).
  - destruct HT as [lvl E].
    destruct (Build_ok _ (newZap_config_well_formed
                            (IsJson conf) (Text2Level (Level conf)) lvl))
      as [logger B].
    eexists. split; [exact (newZap_built _ _ _ _ st E B) |].
    split; [reflexivity |].
    rewrite Check_Trace_is_flag. simpl. apply Text2Level_Trace.
  - apply newZap_wrong_level, HT.
Qed.

(** X4. Given such a backend and no default logger, [GetDefaultLogger]
    returns a new handle when the configured level text, or "DEBUG" in
    place of the empty text, is an accepted one; for every other text it
    panics with the wrong-level error, leaving the state as it was.  With
    the empty text it never panics. *)
Theorem GetDefaultLogger_panics_iff
    (Build_ok : forall cfg, zap.well_formed cfg = true ->
                            exists s, zap_Build cfg = inl s)
    (st : State) (Hdef : def st = None) :
  (if accepted
        (GoStrings.ToUpper
           (if Level (LoggerConfig st) =? "" then "DEBUG"
            else Level (LoggerConfig st)))
   then exists p st',
       GetDefaultLogger st = Ret (Some (ZapLogger p)) st' /\
       addr p = allocated st /\ traceLevel (deref p)
       = (GoStrings.ToUpper (Level (LoggerConfig st)) =? "TRACE")
   else GetDefaultLogger st = Panicked errWrongLevel st) /\
  (Level (LoggerConfig st) = "" ->
   exists p st', GetDefaultLogger st = Ret (Some (ZapLogger p)) st').
Proof.
  assert (Hmain :
    if accepted
         (GoStrings.ToUpper
            (if Level (LoggerConfig st) =? "" then "DEBUG"
             else Level (LoggerConfig st)))
    then exists p st',
        GetDefaultLogger st = Ret (Some (ZapLogger p)) st' /\
        addr p = allocated st /\ traceLevel (deref p)
        = (GoStrings.ToUpper (Level (LoggerConfig st)) =? "TRACE")
    else GetDefaultLogger st = Panicked errWrongLevel st).
  { rewrite (GetDefaultLogger_lazy st Hdef). cbv zeta.
    destruct (with_default_level_frame st) as (_ & _ & Ha & _ & _ & Hl).
    rewrite Hl.
    pose proof (Text2Level_accepted
                  (if Level (LoggerConfig st) =? "" then "DEBUG"
                   else Level (LoggerConfig st))) as HT.
    destruct (accepted _) eqn:EA.
    - destruct HT as [lvl E].
      destruct (Build_ok _ (newZap_config_well_formed
                (IsJson (LoggerConfig (with_default_level st)))
                (Text2Level (if Level (LoggerConfig st) =? "" then "DEBUG"
                             else Level (LoggerConfig st))) lvl))
        as [logger B].
      rewrite (newZap_built _ _ _ _ (with_default_level st) E B).
      eexists _, _. split; [reflexivity |]. split; [exact Ha |].
      cbn [traceLevel deref]. rewrite Text2Level_Trace.
      destruct (Level (LoggerConfig st) =? "") eqn:EL; [| reflexivity].
      apply String.eqb_eq in EL. rewrite EL. reflexivity.
    - rewrite (newZap_wrong_level _ _ (with_default_level st) HT).
      unfold with_default_level.
      destruct (Level (LoggerConfig st) =? ""); [discriminate EA |].
      reflexivity. }
  split; [exact Hmain |].
  intros E. rewrite E in Hmain. cbn in Hmain.
  destruct Hmain as (p & st' & H & _). eauto.
Qed.

(** [GetDefaultLogger] assigns neither [def] nor [defaultContext] and
    writes nothing, whether it returns or panics. *)
Lemma GetDefaultLogger_frame (st : State) :
  def (final_state (GetDefaultLogger st)) = def st /\
  defaultContext (final_state (GetDefaultLogger st)) = defaultContext st /\
  output (final_state (GetDefaultLogger st)) = output st.
Proof.
  destruct (def st) as [d|] eqn:E.
  - rewrite (GetDefaultLogger_set st d E). simpl. auto.
  - rewrite (GetDefaultLogger_lazy st E). cbv zeta.
    destruct (with_default_level_frame st) as (Hd & Hc & _ & Ho & _).
    destruct (newZap _ _ _) as [[l [e|]] s2|e s2] eqn:N; simpl.
    + destruct (newZap_frame _ _ _ _ _ N) as (-> & -> & _ & ->).
      rewrite Hd, Hc, Ho. auto.
    + destruct (newZap_frame _ _ _ _ _ N) as (-> & -> & _ & ->).
      rewrite Hd, Hc, Ho. auto.
    + destruct (newZap_returns
                  (IsJson (LoggerConfig (with_default_level st)))
                  (Text2Level (Level (LoggerConfig (with_default_level st))))
                  (with_default_level st)) as (r & s' & R).
      congruence.
Qed.

(** A logger that [GetDefaultLogger] returns is not nil. *)
Lemma GetDefaultLogger_non_nil (st st' : State) (l : Logger) :
  GetDefaultLogger st = Ret l st' -> l <> None.
Proof.
  intros H. destruct (def st) as [d|] eqn:E.
  - rewrite (GetDefaultLogger_set st d E) in H. injection H as <- _.
    discriminate.
  - destruct (GetDefaultLogger_lazy_result _ _ _ E H) as (_ & _ & p & -> & _).
    discriminate.
Qed.

(** [FromDefaultContext], step by step. *)
Lemma FromDefaultContext_unfold (st : State) :
  FromDefaultContext st
  = match Value (default_context_of st) loggerKey with
    | ctxLogger l =>
        Ret (Some l)
            (match defaultContext st with
             | Some _ => st
             | None => with_defaultContext Background st
             end)
    | _ =>
        GetDefaultLogger
          (match defaultContext st with
           | Some _ => st
           | None => with_defaultContext Background st
           end)
    end.
Proof.
  unfold FromDefaultContext, default_context_of, bind, get.
  destruct (defaultContext st) as [dc|]; simpl.
  - destruct (Value dc loggerKey); reflexivity.
  - reflexivity.
Qed.

(** X5. Whether it returns or panics, [FromDefaultContext] leaves a
    default context behind: the one that was set, or the background
    context when none was; it does not assign the default logger. *)
Theorem FromDefaultContext_sets_default_context (st : State) :
  defaultContext (final_state (FromDefaultContext st))
  = Some (default_context_of st) /\
  def (final_state (FromDefaultContext st)) = def st.
Proof.
  rewrite FromDefaultContext_unfold. unfold default_context_of.
  destruct (defaultContext st) as [dc|] eqn:E.
  - destruct (Value dc loggerKey); simpl;
      try (destruct (GetDefaultLogger_frame st) as (-> & -> & _));
      rewrite ?E; auto.
  - simpl.
    destruct (GetDefaultLogger_frame (with_defaultContext Background st))
      as (-> & -> & _).
    auto.
Qed.

(** X6. A value that is not a [Logger] under the logger key of the
    default context is passed over: [FromDefaultContext], and with it
    [FromContext] on a context without the key, go on to
    [GetDefaultLogger]; the same context given to [FromContext] itself
    ends the call with nil. *)
Theorem default_context_non_logger_falls_through
    (dc : Context) (a : any) (st : State)
    (Hset : defaultContext st = Some dc)
    (Hval : Value dc loggerKey = ctxOther a) :
  FromDefaultContext st = GetDefaultLogger st /\
  (forall ctx, Value ctx loggerKey = ctxNil ->
               FromContext ctx st = GetDefaultLogger st) /\
  FromContext dc st = Ret None st.
Proof.
  assert (H : FromDefaultContext st = GetDefaultLogger st).
  { rewrite FromDefaultContext_unfold. unfold default_context_of.
    rewrite Hset, Hval. reflexivity. }
  split; [exact H |]. split.
  - intros ctx E. unfold FromContext. rewrite E. exact H.
  - unfold FromContext. rewrite Hval. reflexivity.
Qed.

(** A logger that [FromDefaultContext] returns is not nil. *)
Lemma FromDefaultContext_non_nil (st st' : State) (l : Logger) :
  FromDefaultContext st = Ret l st' -> l <> None.
Proof.
  rewrite FromDefaultContext_unfold.
  destruct (Value _ loggerKey); intros H;
    try exact (GetDefaultLogger_non_nil _ _ _ H).
  injection H as <- _. discriminate.
Qed.

(** X7. When [FromContext] returns, the logger is nil if and only if the
    context holds under the logger key a value that is not a [Logger]. *)
Theorem FromContext_nil_iff
    (ctx : Context) (st st' : State) (l : Logger)
    (Hret : FromContext ctx st = Ret l st') :
  l = None <-> exists a, Value ctx loggerKey = ctxOther a.
Proof.
  unfold FromContext in Hret.
  destruct (Value ctx loggerKey) as [|i|a] eqn:E.
  - split.
    + intros ->. exfalso.
      exact (FromDefaultContext_non_nil _ _ _ Hret eq_refl).
    + intros [a Ha]. discriminate.
  - simpl in Hret. injection Hret as <- _. split.
    + discriminate.
    + intros [a Ha]. discriminate.
  - simpl in Hret. injection Hret as <- _. split; eauto.
Qed.

End ConstructionFacts.

(* ===================================================================== *)
(** * Further properties of the context chain                             *)
(* ===================================================================== *)

Section ChainFacts.

Context {RT : GoRuntime} {ZB : ZapBackend}.

(** X8. The order of the chain behind a context without a logger: a
    logger attached to the default context is returned whatever the
    default logger is; with a default context that holds nothing under
    the logger key, the default logger is returned.  In both cases no
    logger is built. *)
Theorem default_context_before_default_logger
    (ctx dc : Context) (l1 l2 : LoggerImpl) (l0 : Logger) (st : State)
    (Hctx : Value ctx loggerKey = ctxNil) :
  (SetDefaultContext (Some (ToContext dc (Some l1))) ;;
   SetDefaultLogger l0 ;;
   FromContext ctx) st
  = Ret (Some l1) (with_def l0 (with_defaultContext (ToContext dc (Some l1)) st))
  /\
  (Value dc loggerKey = ctxNil ->
   (SetDefaultContext (Some dc) ;;
    SetDefaultLogger (Some l2) ;;
    FromContext ctx) st
   = Ret (Some l2) (with_def (Some l2) (with_defaultContext dc st))) /\
  (SetDefaultContext None ;;
   SetDefaultLogger (Some l2) ;;
   FromContext ctx) st
  = Ret (Some l2) (with_def (Some l2) (with_defaultContext Background st)).
Proof.
  unfold FromContext. rewrite Hctx.
  split; [| split].
  - unfold bind, SetDefaultContext, SetDefaultLogger.
    rewrite FromDefaultContext_unfold. unfold default_context_of.
    cbn [defaultContext]. unfold ToContext. rewrite Value_WithValue.
    reflexivity.
  - intros Hdc. unfold bind, SetDefaultContext, SetDefaultLogger.
    rewrite FromDefaultContext_unfold. unfold default_context_of.
    cbn [defaultContext]. rewrite Hdc.
    apply GetDefaultLogger_set. reflexivity.
  - unfold bind, SetDefaultContext, SetDefaultLogger.
    rewrite FromDefaultContext_unfold. unfold default_context_of.
    cbn [defaultContext Value].
    apply GetDefaultLogger_set. reflexivity.
Qed.


(** [Value] below a derived context and below a value under another
    key. *)
Lemma Value_WithValue_other (ctx : Context) (k k' : ctxKey) (v : ctxValue) :
  ctxKey_eqb k k' = false -> Value (WithValue ctx k v) k' = Value ctx k'.
Proof. intros E. simpl. now rewrite E. Qed.

(** X10. [ToContext] touches the logger key only: every other key,
    also one with the text "logger" and another type, keeps its value;
    and the attached logger is found under values of other keys and
    under derived contexts laid over it, and is replaced by a logger
    attached later. *)
Theorem ToContext_frame
    (ctx : Context) (l : Logger) (k : ctxKey)
    (Hk : ctxKey_eqb loggerKey k = false) :
  Value (ToContext ctx l) k = Value ctx k /\
  (forall (i : LoggerImpl) (v : ctxValue) (st : State),
      FromContext (WithCancel (WithValue (ToContext ctx (Some i)) k v)) st
      = Ret (Some i) st) /\
  (forall (i : LoggerImpl) (st : State),
      FromContext (ToContext (ToContext ctx l) (Some i)) st = Ret (Some i) st).
Proof.
  assert (Hk' : ctxKey_eqb k loggerKey = false).
  { unfold ctxKey_eqb in *. rewrite (String.eqb_sym (key_type k)),
      (String.eqb_sym (key_value k)). exact Hk. }
  split; [| split].
  - unfold ToContext. apply Value_WithValue_other, Hk.
  - intros i v st. unfold FromContext. cbn [Value].
    rewrite Hk'. unfold ToContext. rewrite Value_WithValue. reflexivity.
  - intros i st. unfold FromContext, ToContext. rewrite Value_WithValue.
    reflexivity.
Qed.

(** X11. A nil [Logger] attached by [ToContext] hides a logger attached
    below it: [FromContext] then behaves as [FromDefaultContext], and
    with a default logger set and no logger in the default context it
    returns the default logger, not the hidden one. *)
Theorem ToContext_nil_hides_parent
    (ctx : Context) (l d : LoggerImpl) (st : State) :
  FromContext (ToContext (ToContext ctx (Some l)) None) st
  = FromDefaultContext st /\
  (def st = Some d ->
   Value (default_context_of st) loggerKey = ctxNil ->
   exists st',
     FromContext (ToContext (ToContext ctx (Some l)) None) st
     = Ret (Some d) st').
Proof.
  split; [apply FromContext_ToContext_nil |].
  intros Hd Hv. rewrite FromContext_ToContext_nil, FromDefaultContext_unfold.
  rewrite Hv. eexists. apply GetDefaultLogger_set.
  destruct (defaultContext st); [exact Hd | exact Hd].
Qed.

End ChainFacts.

(* ===================================================================== *)
(** * Further properties of the handles                                   *)
(* ===================================================================== *)

Section MethodFacts.

Context {RT : GoRuntime} {ZB : ZapBackend}.

(** One call of a method that returns a handle. *)
Lemma call_mutator_returns (m : mutator) (l : zapLoggerPtr) (st : State) :
  exists z,
    call_mutator m l st
    = Ret (Some (ZapLogger (mkPtr (allocated st) z)))
          (mkState (def st) (defaultContext st) (LoggerConfig st)
                   (S (allocated st)) (output st)) /\
    traceLevel z = traceLevel (deref l) && negb (is_With m).
Proof.
  destruct m; eexists; (split; [reflexivity |]); simpl;
    rewrite ?andb_true_r, ?andb_false_r; reflexivity.
Qed.

(** A chain of such calls: what it returns and what it allocates. *)
Lemma chain_result (ms : list mutator) (l : zapLoggerPtr) (st : State) :
  exists p,
    chain ms l st
    = Ret (Some (ZapLogger p))
          (mkState (def st) (defaultContext st) (LoggerConfig st)
                   (allocated st + List.length ms) (output st)) /\
    traceLevel (deref p)
    = traceLevel (deref l) && negb (existsb is_With ms) /\
    (ms = [] -> p = l) /\
    (ms <> [] -> S (addr p) = allocated st + List.length ms).
Proof.
  revert l st. induction ms as [|m ms IH]; intros l st.
  - exists l. destruct st as [d dc cfg a o]. simpl.
    rewrite Nat.add_0_r, andb_true_r. repeat split; congruence.
  - destruct (call_mutator_returns m l st) as (z & Hcall & Hz).
    destruct (IH (mkPtr (allocated st) z)
                 (mkState (def st) (defaultContext st) (LoggerConfig st)
                          (S (allocated st)) (output st)))
      as (p & Hchain & Hflag & Hnil & Hcons).
    exists p. cbn [chain]. unfold bind at 1. rewrite Hcall, Hchain.
    cbn [def defaultContext LoggerConfig allocated output List.length].
    rewrite Nat.add_succ_r. split; [reflexivity |].
    split; [| split; [discriminate |]].
    + rewrite Hflag. cbn [deref existsb]. rewrite Hz.
      rewrite negb_orb, andb_assoc. reflexivity.
    + intros _. destruct ms as [|m' ms'].
      * rewrite (Hnil eq_refl). simpl. lia.
      * rewrite (Hcons ltac:(discriminate)). simpl. lia.
Qed.


(** X13. A chain of at least one such call on a handle that was
    allocated before returns a handle at a new address, different from
    the receiver. *)
Theorem chain_returns_new_handle
    (ms : list mutator) (l : zapLoggerPtr) (st : State)
    (Hms : ms <> []) (Hl : addr l < allocated st) :
  exists p st',
    chain ms l st = Ret (Some (ZapLogger p)) st' /\
    p <> l /\
    allocated st <= addr p < allocated st'.
Proof.
  destruct (chain_result ms l st) as (p & H & _ & _ & Haddr).
  specialize (Haddr Hms).
  assert (Hlen : 1 <= List.length ms) by (destruct ms; [congruence | simpl; lia]).
  eexists p, _. split; [exact H |]. split.
  - intros ->. lia.
  - cbn [allocated]. lia.
Qed.

(** X14. Every write method that returns adds exactly one event to the
    output and changes nothing else; the event depends neither on the
    state, nor on the address of the handle, nor on its trace flag (so
    [Print] writes its record also on a handle whose
    [Check(TraceLevel)] is false). *)
Theorem write_methods_frame (m : write_method) (l : zapLoggerPtr) :
  exists e,
    forall (st : State) (flag : bool) (a : nat),
      call_write m (mkPtr a (mk_zapLogger (log (deref l)) flag)) st
      = Ret tt (with_event e st).
Proof.
  destruct m; eexists; intros st flag a;
    cbv [call_write Info Infof Infow Warn Warnf Warnw Error Errorf Errorw
         Debug Debugf Debugw Trace Tracef Print Printf trace sugared emit
         AddCore ce_Write write_cores ce_cores ce_Entry bind ret with_event
         log deref app def defaultContext LoggerConfig allocated output
         zapcore.Time zapcore.LoggerName zapcore.Stack zapcore.Entry_zero];
    reflexivity.
Qed.

(** X15. A write method named after a severity makes one leveled call,
    on the handle's logger with the three options of the package, at
    the backend level [convLevel] gives for that severity; for the
    severities other than [TraceLevel] this is the level [Check] asks the
    backend about.  [Print] and [Printf] make no leveled call: they
    write an entry of the trace level straight to the core. *)
Theorem write_methods_level (m : write_method) (l : zapLoggerPtr) :
  match severity_of m with
  | Some sev =>
      exists lvl c,
        convLevel sev = Some lvl /\
        (forall st,
            call_write m l st
            = Ret tt
                (with_event
                   (LeveledWrite (zap_WithOptions (log (deref l)) options)
                                 lvl c) st)) /\
        Check l sev
        = (if (sev =? TraceLevel)%N then traceLevel (deref l)
           else zap_Check (log (deref l)) lvl "")
  | None =>
      exists msg,
        forall st,
          call_write m l st
          = Ret tt
              (with_event
                 (CoreWrite
                    (zap_Core (zap_WithOptions (log (deref l)) options))
                    (zapcore.mkEntry traceEntryLevel 0 "" msg
                       (zapcore.NewEntryCaller
                          (runtime_Caller callerSkipOffset)) "")) st)
  end.
Proof.
  destruct m; cbn [severity_of];
    try (eexists _, _; split; [reflexivity |]; split;
         [intros; reflexivity | reflexivity]).
  - exists (fmt_Sprint args). intros st. apply trace_writes_one_entry.
  - exists (fmt_Sprintf arg int). intros st. apply trace_writes_one_entry.
Qed.

(** X16. [Trace] and [Tracef] are [Debugf]: they treat their first
    argument as a format and make a leveled call at zap's debug level.
    They never write what [Printf] writes for the same arguments, an
    entry of the trace level. *)
Theorem Trace_is_Debugf (l : zapLoggerPtr) (s : string) (i : list any) :
  Trace l s i = Debugf l s i /\
  Tracef l s i = Debugf l s i /\
  (forall st, Trace l s i st <> Printf l s i st) /\
  (forall st,
      Trace l s i st
      = Ret tt
          (with_event
             (LeveledWrite (zap_WithOptions (log (deref l)) options)
                           zapcore.DebugLevel (Formatted s i)) st)).
Proof.
  split; [reflexivity |]. split; [reflexivity |]. split.
  - intros st H. cbv in H. injection H as H.
    apply app_inv_head in H. discriminate.
  - intros st. reflexivity.
Qed.

End MethodFacts.

Section RenderingFacts.

Context {RT : GoRuntime} {ZB : ZapBackend} {ZE : ZapEncoders}.

(** The level encoder [newZap] installs, applied to a level. *)
Lemma newZap_encode_level json level lvl (l : zapcore.Level)
    (enc : PrimitiveArrayEncoder) :
  encode_level (newZap_config json level lvl) l enc
  = if (level =? TraceLevel)%N then TraceLevelEncoder l enc
    else if json then LowercaseLevelEncoder l enc
         else CapitalColorLevelEncoder l enc.
Proof.
  unfold encode_level.
  destruct (newZap_config_encoding json level lvl) as (_ & _ & ->).
  destruct (level =? TraceLevel)%N, json; reflexivity.
Qed.

(** X17. The level of the entry [Print] writes, encoded by the level
    encoder of the configuration the handle was built from: the text
    "TRACE" when the handle was built for [TraceLevel], in JSON and in
    console output alike; on a handle built for any other severity the
    stock encoder of zap gets the level below debug.  A handle built
    for [TraceLevel] encodes every other level with the capital colour
    encoder, in JSON output too. *)
Theorem Print_level_rendering
    (json : bool) (level : LogLevel) (st st' : State) (p : zapLoggerPtr)
    (Hbuilt : newZap json level st = Ret (Some (ZapLogger p), None) st') :
  exists cfg,
    zap_Build cfg = inl (log (deref p)) /\
    (forall args st1 enc,
        exists c e,
          Print p args st1 = Ret tt (with_event (CoreWrite c e) st1) /\
          encode_level cfg (zapcore.Level_ e) enc
          = if (level =? TraceLevel)%N then AppendString enc "TRACE"
            else if json
                 then LowercaseLevelEncoder (zapcore.DebugLevel - 1)%Z enc
                 else CapitalColorLevelEncoder (zapcore.DebugLevel - 1)%Z enc)
    /\
    (level = TraceLevel ->
     forall l enc,
       l <> (zapcore.DebugLevel - 1)%Z ->
       encode_level cfg l enc = CapitalColorLevelEncoder l enc).
Proof.
  destruct (newZap_handle _ _ _ _ _ Hbuilt)
    as (_ & _ & _ & _ & _ & _ & _ & lvl & _ & HB).
  exists (newZap_config json level lvl). split; [exact HB |]. split.
  - intros args st1 enc. eexists _, _.
    split; [apply trace_writes_one_entry |].
    cbn [zapcore.Level_]. rewrite newZap_encode_level.
    destruct (level =? TraceLevel)%N; reflexivity.
  - intros -> l enc Hl. rewrite newZap_encode_level. cbn.
    unfold TraceLevelEncoder.
    destruct (Z.eqb_spec l (zapcore.DebugLevel - 1)); [contradiction |].
    reflexivity.
Qed.

End RenderingFacts.

Section ResultShapeFacts.

Context {RT : GoRuntime} {ZB : ZapBackend}.

(** X18. Whatever the backend does, [newZap] returns without a panic
    and exactly one of its two results is nil: either a nil logger with
    an error, and then the state is as it was (nothing was allocated),
    or a handle of this adapter with a nil error, allocated at the next
    free address.  It never writes and never assigns a package
    variable. *)
Theorem newZap_result_shape (json : bool) (level : LogLevel) (st : State) :
  exists r st',
    newZap json level st = Ret r st' /\
    ((fst r = None /\ snd r <> None /\ st' = st) \/
     (exists p, r = (Some (ZapLogger p), None) /\
                addr p = allocated st /\
                allocated st' = S (allocated st))) /\
    def st' = def st /\
    defaultContext st' = defaultContext st /\
    LoggerConfig st' = LoggerConfig st /\
    output st' = output st.
Proof.
  destruct (convLevel level) as [lvl|] eqn:E.
  - destruct (zap_Build (newZap_config json level lvl)) as [logger|err] eqn:B.
    + eexists _, _. split; [exact (newZap_built _ _ _ _ st E B) |].
      split; [right; eexists; repeat split | repeat split].
    + eexists _, _. split; [exact (newZap_build_error _ _ _ _ st E B) |].
      split; [left; repeat split; discriminate | repeat split].
  - eexists _, _. split; [exact (newZap_wrong_level json _ st E) |].
    split; [left; repeat split; discriminate | repeat split].
Qed.

(** X19. An ASCII text that is, up to the case of its letters, one of
    the eight texts of the [switch] gets the level of its [case]:
    TRACE, DEBUG, INFO, ERROR, FATAL and PANIC the level of the same
    name, WARNING [WarnLevel] and UNKNOWN [InfoLevel]. *)
Theorem Text2Level_table_any_case
    (s t : string) (v : LogLevel)
    (Hascii : GoStrings.isASCII s = true)
    (Hcase : GoStrings.mapBytes GoStrings.upperByte s = t)
    (Htable : In (t, v) Text2Level_table) :
  Text2Level s = v.
Proof.
  apply (Text2Level_recognized s t v Htable).
  rewrite (ToUpper_ascii s Hascii). exact Hcase.
Qed.

End ResultShapeFacts.

(* ===================================================================== *)
(** * The further properties on the reference backend                     *)
(* ===================================================================== *)

Section MoreReferenceRuns.

Import Reference.

(** [NewLogger] with the level text "trace" for console output. *)
Lemma NewLogger_accepts_witness :
  exists p,
    NewLogger (mkConfig "trace" false) State_init
    = Ret (Some (ZapLogger p), None) after_one /\
    addr p = 0 /\
    Check p TraceLevel = true.
Proof.
  exact (NewLogger_accepts (RT := runtime) (ZB := backend)
           Reference_Build_ok (mkConfig "trace" false) State_init).
Defined.

(** [GetDefaultLogger] from the initial state, and with the level text
    "warn". *)
Lemma GetDefaultLogger_panics_iff_witness :
  (exists p st',
      GetDefaultLogger (RT := runtime) (ZB := backend) State_init
      = Ret (Some (ZapLogger p)) st') /\
  GetDefaultLogger (RT := runtime) (ZB := backend)
    (mkState None None (mkConfig "warn" false) 0 [])
  = Panicked errWrongLevel (mkState None None (mkConfig "warn" false) 0 []).
Proof.
  split.
  - apply (proj2 (GetDefaultLogger_panics_iff (RT := runtime)
                    Reference_Build_ok State_init eq_refl)).
    reflexivity.
  - exact (proj1 (GetDefaultLogger_panics_iff (RT := runtime)
                    Reference_Build_ok
                    (mkState None None (mkConfig "warn" false) 0 [])
                    eq_refl)).
Defined.

(** A number under the logger key of the default context. *)
Lemma default_context_non_logger_falls_through_witness :
  FromDefaultContext (RT := runtime) (ZB := backend) with_number_in_default
  = Ret (Some (OtherLogger 7)) with_number_in_default /\
  FromContext (RT := runtime) ctx_with_number with_number_in_default
  = Ret None with_number_in_default.
Proof.
  destruct (default_context_non_logger_falls_through (RT := runtime)
              ctx_with_number (anyInt 42) with_number_in_default
              eq_refl eq_refl) as (H1 & _ & H3).
  split; [rewrite H1; reflexivity | exact H3].
Defined.

(** [FromContext] returning nil on the context that holds a number. *)
Lemma FromContext_nil_iff_witness :
  FromContext (RT := runtime) ctx_with_number with_mock_default
  = Ret None with_mock_default /\
  exists a, Value (ZB := backend) ctx_with_number loggerKey = ctxOther a.
Proof.
  split; [reflexivity |].
  apply (proj1 (FromContext_nil_iff (RT := runtime) ctx_with_number
                  with_mock_default with_mock_default None eq_refl)).
  reflexivity.
Defined.

(** A logger in the default context and another one as default logger. *)
Lemma default_context_before_default_logger_witness :
  Value (ZB := backend) ctx_other_key loggerKey = ctxNil /\
  (SetDefaultContext (Some (ToContext Background (Some (OtherLogger 1)))) ;;
   SetDefaultLogger (Some (OtherLogger 2)) ;;
   FromContext (RT := runtime) ctx_other_key) State_init
  = Ret (Some (OtherLogger 1))
        (with_def (Some (OtherLogger 2))
           (with_defaultContext
              (ToContext Background (Some (OtherLogger 1))) State_init)).
Proof.
  split; [reflexivity |].
  exact (proj1 (default_context_before_default_logger (RT := runtime)
                  ctx_other_key Background (OtherLogger 1) (OtherLogger 2)
                  (Some (OtherLogger 2)) State_init eq_refl)).
Defined.


(** A key with the text of the logger key and a type of its own. *)
Lemma ToContext_frame_witness :
  ctxKey_eqb loggerKey (mkKey "main.key" "logger") = false /\
  Value (ZB := backend)
        (ToContext ctx_other_key (Some (OtherLogger 1)))
        (mkKey "main.key" "logger")
  = ctxOther (anyInt 42).
Proof.
  split; [reflexivity |].
  exact (proj1 (ToContext_frame (RT := runtime) ctx_other_key
                  (Some (OtherLogger 1)) (mkKey "main.key" "logger")
                  eq_refl)).
Defined.

(** A hidden logger and a default logger. *)
Lemma ToContext_nil_hides_parent_witness :
  exists st',
    FromContext (RT := runtime) (ZB := backend)
      (ToContext (ToContext Background (Some (OtherLogger 1))) None)
      with_mock_default
    = Ret (Some (OtherLogger 7)) st'.
Proof.
  apply (proj2 (ToContext_nil_hides_parent (RT := runtime) Background
                  (OtherLogger 1) (OtherLogger 7) with_mock_default));
    reflexivity.
Defined.

(** One [With] on the handle built for [TraceLevel]. *)
Lemma chain_returns_new_handle_witness :
  exists p st',
    chain (ZB := backend)
          [call_With [anyString "user"]] trace_handle after_one
    = Ret (Some (ZapLogger p)) st' /\
    p <> trace_handle /\
    allocated after_one <= addr p < allocated st'.
Proof.
  apply chain_returns_new_handle; [discriminate | apply le_n].
Defined.

(** [Print] on the handle built for [TraceLevel]. *)
Lemma Print_level_rendering_witness :
  newZap true TraceLevel State_init
  = Ret (Some (ZapLogger trace_handle), None) after_one /\
  exists cfg,
    zap_Build cfg = inl (log (deref trace_handle)) /\
    forall args st1 enc,
      exists c e,
        Print (RT := runtime) trace_handle args st1
        = Ret tt (with_event (CoreWrite c e) st1) /\
        encode_level (ZE := encoders) cfg (zapcore.Level_ e) enc
        = AppendString enc "TRACE".
Proof.
  split; [reflexivity |].
  destruct (Print_level_rendering (RT := runtime) (ZE := encoders)
              true TraceLevel State_init after_one trace_handle eq_refl)
    as (cfg & HB & HP & _).
  exists cfg. split; [exact HB | exact HP].
Defined.

(** The test of [TraceLevelEncoder]: the level below debug is encoded as
    "TRACE", the debug level by the capital colour encoder. *)
Example TraceLevelEncoder_test :
  TraceLevelEncoder (ZE := encoders) (zapcore.DebugLevel - 1)%Z []
  = ["TRACE"] /\
  TraceLevelEncoder (ZE := encoders) zapcore.DebugLevel []
  = ["color:DEBUG"].
Proof. split; reflexivity. Qed.

(** "Unknown" in mixed case. *)
Lemma Text2Level_table_any_case_witness :
  @Text2Level runtime "uNkNoWn" = InfoLevel.
Proof.
  apply (Text2Level_table_any_case (RT := runtime) "uNkNoWn" "UNKNOWN");
    [reflexivity | reflexivity |].
  do 7 right. left. reflexivity.
Defined.

(** The test of [bracketsCallerEncoder]. *)
Example bracketsCallerEncoder_test :
  bracketsCallerEncoder (ZE := encoders)
    (zapcore.NewEntryCaller (mkCallerInfo 1 "test.go:42" 42 true)) []
  = ["[test.go:42]:"].
Proof. reflexivity. Qed.

End MoreReferenceRuns.
